(** * BCRobot: the per-robot decision engine of bobcat (src/robot.py)

    A shallow embedding of the class [BCRobot] and of its control cycle
    [run], with the properties of the stuck detector, the goal blacklist,
    the relay-beacon drop policy, the deployment sequence and the mode
    arbiter.

    Conventions of the embedding:
    - Python floats are IEEE 754 binary64 numbers: Rocq's primitive floats.
      Counters and lengths are Python integers: [Z].
    - The robot object is a record [Robot]; each method is a program in a
      state-and-exception monad [M] over a [World], the robot together with
      the trace of what it sent to its collaborators (ROS publishers,
      services, sleeps, log lines, and the methods inherited from the parent
      class [BOBCAT], which is not part of this file).
    - [util.helpers] is not part of this file either: its functions are the
      fields of the class [Helpers].
    - A global name that the module uses without importing it raises
      NameError where a method looks it up. *)

From Stdlib Require Import ZArith List String Ascii Bool Lia Floats.
From Stdlib Require Import Permutation.
From coqutil Require Import Datatypes.RecordSetters.
Import RecordSetters.TriangleBracketNotations.
Import ListNotations.

(* 0.4 and 0.6 are read as Python reads them: the nearest binary64 value. *)
Set Warnings "-inexact-float".

Open Scope string_scope.
Open Scope list_scope.
Open Scope Z_scope.

(** Python's [+] on strings. *)
Infix "^^" := String.append (at level 60, right associativity).

(** ** Messages and registries *)

Module Point.
Record t := mk { x : float; y : float; z : float }.
End Point.

Module Quaternion.
Record t := mk { x : float; y : float; z : float; w : float }.
End Quaternion.

Module Pose.
Record t := mk { position : Point.t; orientation : Quaternion.t }.
End Pose.

(** [agent.goal]: a stamped pose and a path, kept here as the pose and the
    poses of the path. *)
Module Goal.
Record t := mk { pose : Pose.t; path : list Pose.t }.
End Goal.

Module Beacon.
Record t := mk {
  id : string;
  owner : bool;
  active : bool;
  pos : Point.t;
  simcomm : bool
}.
End Beacon.

Module Artifact.
Record t := mk { id : string; agent_id : string; reported : bool }.
End Artifact.

Module Neighbor.
Record t := mk { id : string; lastMessage : Z }.
End Neighbor.

(** [agent.reset]: the map-merge reset record. *)
Module Reset.
Record t := mk { stamp : Z; agent : string; ignore : bool; robots : bool }.
End Reset.

Module Agent.
Record t := mk {
  odometry : Pose.t;             (* agent.odometry.pose.pose *)
  goal : Goal.t;
  exploreGoal : Pose.t;
  explorePath : list Pose.t;
  status : string;
  atnode : bool;                 (* agent.atnode.data *)
  lastArtifact : string;
  guiAccept : bool;
  guiTaskName : string;
  guiTaskValue : string;
  guiGoalPoint : Pose.t;         (* agent.guiGoalPoint.pose *)
  guiStamp : Z;
  reset : Reset.t
}.
End Agent.

Module Base.
Record t := mk { incomm : bool; lastArtifact : string }.
End Base.

(** The robot object: the attributes [BCRobot.__init__] sets, and those of
    the parent class that the methods of this file read or write. A Python
    dict is the list of its items in iteration order. *)
Record Robot := mkRobot {
  (* configuration *)
  id : string;
  rate : Z;
  deconflictRadius : float;
  stopCheck : Z;
  maxAnchorDist : float;
  maxDist : float;
  junctionDist : float;
  turnDetect : bool;
  delayDrop : bool;
  reverseDropEnable : bool;
  reverseDrop : bool;
  anchorPos : Point.t;
  hislen : Z;
  minAnchorDist : float;
  useSimComms : bool;
  useIgnition : bool;
  useVirtual : bool;
  useTraj : bool;
  solo : bool;
  commThreshold : Z;
  (* state of this class *)
  startedMission : bool;
  initialPose : option Pose.t;     (* False until the first cycle *)
  bl_beacons : list Point.t;
  history : list Pose.t;
  report : bool;
  newStatus : option string;       (* False, or the additional status *)
  statusCount : Z;
  beaconCommLost : Z;
  baseRegain : Z;
  regainBase : option Z;           (* read and written by [run], never set by [__init__] *)
  mode : string;
  stuck : Z;
  planner_status : bool;
  launch_status : bool;
  isAerial : bool;
  wait : bool;
  stopStart : bool;
  (* state of the parent class *)
  agent : Agent.t;
  base : Base.t;
  beacons : list (string * Beacon.t);
  numBeacons : Z;
  blgoals : list Point.t;
  neighbors : list (string * Neighbor.t);
  artifacts : list (string * Artifact.t)
}.

(** ** What the robot sends out *)

(** The methods of [BOBCAT] that this file calls. *)
Inductive ParentCall :=
| stop
| setGoalPoint (reason : string)
| updateStatus (status : string)
| addBlacklist (p : Point.t)
| deconflictGoals
| artifactCheckNeighbor (neighbor : string)
| artifactCheckAgent
| publishGUITask.

Inductive Event :=
| comm_pub (incomm : bool)
| task_pub (status : string)
| home_pub (b : bool)
| traj_pub (b : bool)
| stop_pub (b : bool)
| deploy_pub (b : bool)
| deploy_breadcrumb_pub
| goal_pub (p : Pose.t)
| path_pub (poses : list Pose.t)
| num_pub (n : Z)
| wait_for_service (service : string)
| set_state (model : string) (p : Pose.t)
| sleep (seconds : Z)
| print_result
| loginfo (line : string)
| logerr (line : string)
| parent (c : ParentCall).

Record World := mkWorld { self : Robot; trace : list Event }.

(** The collaborators. [raises tr e] is the message of the exception the
    call [e] raises after the trace [tr], if it raises; [parentEffect c] is
    what the inherited method does to the robot object. *)
Class Env := {
  raises : list Event -> Event -> option string;
  parentEffect : ParentCall -> Robot -> Robot
}.

(** The result of a call: a value, or the message of the exception raised. *)
Inductive Outcome (A : Type) :=
| Ok (a : A)
| Raise (e : string).
Arguments Ok {A} a.
Arguments Raise {A} e.

(** The functions of [util.helpers] that this file calls. The averages may
    raise (a division by the length of an empty list). *)
Class Helpers := {
  getDist : Point.t -> Point.t -> float;
  getYaw : Quaternion.t -> float;
  averagePose : list Pose.t -> Outcome (Point.t * float);
  averagePosition : list Point.t -> Outcome Point.t;
  angleDiff : float -> float -> float
}.

(** ** The global names of the module *)

(** What the methods use of Python's [math] module. *)
Module Math.
Record t := mk {
  degrees : float -> float;
  cos : float -> float;
  sin : float -> float
}.
End Math.

(** robot.py imports [rospy], [Point], [OriginDetectionStatus], the helpers
    above and [BOBCAT], and nothing else. Its methods also use the names
    [math] (lines 156, 157, 364 and 365) and [Empty] (line 166), which are
    therefore unbound: looking one of them up raises NameError, named here
    by its class as the other built-in errors are. (The constructor uses
    [Bool], unbound likewise, at lines 73 and 74; this file takes the robot
    object as given and does not run the constructor.) *)
Module Globals.
Definition math : Outcome Math.t := Raise "NameError".
Definition Empty : Outcome unit := Raise "NameError".
End Globals.

(** ** The monad of methods *)

Definition M (A : Type) : Type := World -> Outcome A * World.

Definition ret {A} (a : A) : M A := fun w => (Ok a, w).

Definition bind {A B} (m : M A) (k : A -> M B) : M B :=
  fun w => match m w with
           | (Ok a, w') => k a w'
           | (Raise e, w') => (Raise e, w')
           end.

Declare Scope method_scope.
Delimit Scope method_scope with method.
Notation "x <- m ;; k" := (bind m (fun x => k))
  (at level 61, m at next level, right associativity) : method_scope.
Notation "m ;; k" := (bind m (fun _ => k))
  (at level 61, right associativity) : method_scope.
Open Scope method_scope.

Definition get : M Robot := fun w => (Ok (self w), w).

Definition modify (f : Robot -> Robot) : M unit :=
  fun w => (Ok tt, w <| self ::= f |>).

Definition raise {A} (e : string) : M A := fun w => (Raise e, w).

Definition lift {A} (o : Outcome A) : M A := fun w => (o, w).

(** A log line: recorded, never raises. *)
Definition log (e : Event) : M unit :=
  fun w => (Ok tt, w <| trace ::= fun tr => tr ++ [e] |>).

(** A call to a collaborator: it raises when the environment says so, and is
    recorded otherwise. *)
Definition call {env : Env} (e : Event) : M unit :=
  fun w => match raises (trace w) e with
           | Some msg => (Raise msg, w)
           | None => (Ok tt, w <| trace ::= fun tr => tr ++ [e] |>)
           end.

(** A call to an inherited method. *)
Definition super {env : Env} (c : ParentCall) : M unit :=
  call (parent c) ;; modify (parentEffect c).

(** [try: body except Exception as e: handler e]. *)
Definition try_except (body : M unit) (handler : string -> M unit) : M unit :=
  fun w => match body w with
           | (Ok a, w') => (Ok a, w')
           | (Raise e, w') => handler e w'
           end.

Definition when (b : bool) (m : M unit) : M unit := if b then m else ret tt.

Fixpoint for_each {A} (l : list A) (body : A -> M unit) : M unit :=
  match l with
  | [] => ret tt
  | a :: l' => body a ;; for_each l' body
  end.

(** ** Python built-ins *)

Definition len {A} (l : list A) : Z := Z.of_nat (List.length l).

(** [l[i:]] *)
Definition slice_from {A} (i : Z) (l : list A) : list A :=
  if i <? 0 then skipn (Z.to_nat (len l + i)) l else skipn (Z.to_nat i) l.

(** [l[:i]] *)
Definition slice_to {A} (i : Z) (l : list A) : list A :=
  if i <? 0 then firstn (Z.to_nat (len l + i)) l else firstn (Z.to_nat i) l.

(** [l[i]], an IndexError out of range. *)
Definition index {A} (l : list A) (i : Z) : Outcome A :=
  let j := if i <? 0 then len l + i else i in
  if j <? 0 then Raise "IndexError"
  else match nth_error l (Z.to_nat j) with
       | Some a => Ok a
       | None => Raise "IndexError"
       end.

(** [c in s] for a character [c]. *)
Fixpoint contains (c : ascii) (s : string) : bool :=
  match s with
  | EmptyString => false
  | String c' s' => Ascii.eqb c c' || contains c s'
  end.

(** [float(n)] for an integer below 2^63 in absolute value. *)
Definition float_of_Z (n : Z) : float :=
  if n <? 0 then PrimFloat.opp (PrimFloat.of_uint63 (Uint63.of_Z (- n)))
  else PrimFloat.of_uint63 (Uint63.of_Z n).

(** [int(f)] for a finite float: truncation towards zero. *)
Definition int (f : float) : Z :=
  match Prim2SF f with
  | S754_finite s m e =>
      let a := if 0 <=? e then Z.pos m * 2 ^ e else Z.pos m / 2 ^ (- e) in
      if s then - a else a
  | _ => 0
  end.

(** A dict: its values, a lookup by key (a KeyError when absent) and the
    update of the entry of a key. *)
Definition values {A} (d : list (string * A)) : list A := map snd d.

Fixpoint lookup {A} (k : string) (d : list (string * A)) : option A :=
  match d with
  | [] => None
  | (k', a) :: d' => if String.eqb k k' then Some a else lookup k d'
  end.

Fixpoint update {A} (k : string) (f : A -> A) (d : list (string * A)) : list (string * A) :=
  match d with
  | [] => []
  | (k', a) :: d' => if String.eqb k k' then (k', f a) :: d' else (k', a) :: update k f d'
  end.

(** Truth value of a string-or-False. *)
Definition truthy (s : option string) : option string :=
  match s with
  | Some "" => None
  | _ => s
  end.

(** [a > b] and [a >= b] on floats, in the order the source writes them. *)
Definition gtb (a b : float) : bool := PrimFloat.ltb b a.

(** [a % b] on integers: a ZeroDivisionError for [b = 0], else the remainder
    with the sign of [b], which is [Z.modulo]. *)
Definition pymod (a b : Z) : Outcome Z :=
  if b =? 0 then Raise "ZeroDivisionError" else Ok (a mod b).

Fixpoint fold_each {A S} (l : list A) (s : S) (body : S -> A -> M S) : M S :=
  match l with
  | [] => ret s
  | a :: l' => s' <- body s a ;; fold_each l' s' body
  end.

(** ** The methods of BCRobot *)

Section Methods.
Context {helpers : Helpers} {env : Env}.

Definition position (r : Robot) : Point.t := Pose.position (Agent.odometry (agent r)).

Definition WaitMonitor (status : Z) : M unit :=
  when (0 <? status) (modify (fun r => r <| wait := false |>)).

Definition PlannerMonitor (data : bool) : M unit :=
  modify (fun r => r <| planner_status := data |>) ;;
  when (negb data) (super (updateStatus "Unable to plan")).

Definition LaunchMonitor (data : bool) : M unit :=
  modify (fun r => r <| isAerial := true |> <| launch_status := data |>).

Definition updateHistory : M unit :=
  r <- get ;;
  (* Check whether we've started the mission by moving 5 meters *)
  match initialPose r with
  | None => modify (fun r => r <| initialPose := Some (Agent.odometry (agent r)) |>)
  | Some initial =>
      when (negb (startedMission r))
        (when (gtb (getDist (position r) (Pose.position initial)) 5)
           (modify (fun r => r <| startedMission := true |>)))
  end ;;
  modify (fun r => r <| history ::= fun h => h ++ [Agent.odometry (agent r)] |>) ;;
  r <- get ;;
  when (hislen r <? len (history r))
    (modify (fun r => r <| history ::= slice_from (- hislen r) |>)).

Definition getStatus : M string :=
  r <- get ;;
  (* Clear out the additional status messages every so often *)
  (if 5 <? statusCount r
   then modify (fun r => r <| newStatus := None |> <| statusCount := 0 |>)
   else modify (fun r => r <| statusCount ::= fun n => n + 1 |>)) ;;
  r <- get ;;
  match truthy (newStatus r) with
  | Some extra => ret (Agent.status (agent r) ^^ "+++" ^^ extra)
  | None => ret (Agent.status (agent r))
  end.

Definition deconflictExplore : M unit :=
  (* Explore with goal deconfliction *)
  modify (fun r => r <| stopStart := true |> <| agent -> Agent.status := "Explore" |>) ;;
  call (home_pub false) ;;
  r <- get ;;
  call (task_pub (Agent.status (agent r))) ;;
  (* Find the best goal point to go to *)
  super deconflictGoals ;;
  r <- get ;;
  (if useTraj r
      || (negb (planner_status r)
          && ((stopCheck r <? stuck r)
              || PrimFloat.ltb
                   (getDist (Pose.position (Goal.pose (Agent.goal (agent r)))) (position r))
                   1))
   then
     call (traj_pub true) ;;
     super (updateStatus "Following Trajectory") ;;
     r <- get ;;
     log (loginfo (id r ^^ " using trajectory follower during explore")) ;;
     (* Stop using the old goal and path or else we'll get stuck in a loop *)
     modify (fun r => r <| agent -> Agent.goal :=
               Goal.mk (Agent.exploreGoal (agent r)) (Agent.explorePath (agent r)) |>) ;;
     r <- get ;;
     when (0 <? len (Goal.path (Agent.goal (agent r))))
       (pathend <- lift (index (Goal.path (Agent.goal (agent r))) (-1)) ;;
        when (negb (planner_status r)
              && PrimFloat.ltb (getDist (Pose.position pathend) (position r)) 1)
          (super (addBlacklist (Pose.position pathend))))
   else call (traj_pub false)) ;;
  (* Publish the selected goal and path for the guidance controller *)
  r <- get ;;
  call (goal_pub (Goal.pose (Agent.goal (agent r)))) ;;
  call (path_pub (Goal.path (Agent.goal (agent r)))).

(** The first available beacon of this agent: the loop of [deployBeacon],
    which leaves [deploy] at [False] when it finds none. *)
Definition first_available (bs : list Beacon.t) : option string :=
  option_map Beacon.id (find (fun beacon => Beacon.owner beacon && negb (Beacon.active beacon)) bs).

(** [self.beacons[deploy].active = True] and the two assignments after it;
    a KeyError when the dict has no such key. *)
Definition activate (deploy : string) (p : Point.t) : M unit :=
  r <- get ;;
  match lookup deploy (beacons r) with
  | None => raise "KeyError"
  | Some _ =>
      modify (fun r => r <| beacons ::= update deploy
                (fun b => b <| Beacon.active := true |> <| Beacon.simcomm := true |>
                            <| Beacon.pos := p |>) |>)
  end.

Definition deployBeacon (inplace : bool) (dropReason : string) : M unit :=
  r <- get ;;
  (* Find the first available beacon for this agent *)
  match truthy (first_available (values (beacons r))) with
  | Some deploy =>
      (* Stop the robot and publish message to deployment mechanism *)
      super stop ;;
      r <- get ;;
      let pose := Agent.odometry (agent r) in
      modify (fun r => r <| agent -> Agent.status := "Deploy" |>) ;;
      call (task_pub "Deploy") ;;
      pose <- (if useSimComms r
               then
                 call (wait_for_service
                         (if useIgnition r then "/subt/set_pose" else "/gazebo/set_model_state")) ;;
                 (* Get the yaw from the quaternion *)
                 let yaw := getYaw (Pose.orientation pose) in
                 let offset := (if inplace then 0.5 else 6)%float in
                 let p := Pose.position pose in
                 (* [math.cos (yaw)]: the name [math] is looked up here *)
                 math <- lift Globals.math ;;
                 let pose :=
                   pose <| Pose.position :=
                     p <| Point.x := (Point.x p - Math.cos math yaw * offset)%float |>
                       <| Point.y := (Point.y p - Math.sin math yaw * offset)%float |> |> in
                 (* [pose] is the odometry pose object itself *)
                 modify (fun r => r <| agent -> Agent.odometry := pose |>) ;;
                 ret pose
               else ret pose) ;;
      log (loginfo (id r ^^ " deploying beacon " ^^ deploy ^^ " for " ^^ dropReason)) ;;
      try_except
        ((* Deploy a virtual beacon whether using virtual, sim or live;
            the argument [Empty ()] is evaluated before the call *)
         lift Globals.Empty ;;
         call deploy_breadcrumb_pub ;;
         (if useSimComms r
          then
            (* Drop the simulated beacon, and pause to simulate drop *)
            call (set_state deploy pose) ;;
            call (sleep 3) ;;
            log print_result
          else
            (* Wait to stop, send deploy message, then wait for deployment to finish *)
            call (sleep 3) ;;
            call (deploy_pub true) ;;
            when (negb (useVirtual r)) (call (sleep 10))) ;;
         (* Resume the mission *)
         call (stop_pub true) ;;
         deconflictExplore ;;
         call (deploy_pub false) ;;
         modify (fun r => r <| numBeacons ::= fun n => n - 1 |>) ;;
         activate deploy (Pose.position pose))
        (fun e => log (logerr ("Error deploying beacon " ^^ e)))
  | None =>
      log (loginfo (id r ^^ " no beacon to deploy")) ;;
      (* Most likely reason it thought we had a beacon is due to restart.  So set num=0. *)
      modify (fun r => r <| numBeacons := 0 |> <| mode := "Explore" |>)
  end.

(** One round of the loop of [beaconDistCheck]. *)
Definition distCheckStep (pose : Pose.t) (checkDist : float)
    (acc : bool * Z * Z) (beacon : Beacon.t) : bool * Z * Z :=
  let '(dropBeacon, numBeacons, numDistBeacons) := acc in
  if Beacon.active beacon then
    (* Count the beacons we know about, and check distance *)
    let numBeacons := numBeacons + 1 in
    let dist := getDist (Pose.position pose) (Beacon.pos beacon) in
    (* Count how many beacons are past max range *)
    if gtb dist checkDist then (true, numBeacons, numDistBeacons + 1)
    else (dropBeacon, numBeacons, numDistBeacons)
  else acc.

Definition beaconDistCheck (r : Robot) (pose : Pose.t) (checkDist : float)
    (dropBeacon : bool) : bool * Z * Z :=
  let '(dropBeacon, numBeacons, numDistBeacons) :=
    fold_left (distCheckStep pose checkDist) (values (beacons r)) (dropBeacon, 0, 0) in
  (* Cancel the drop if we have more than one beacon in range *)
  let dropBeacon := if 0 <? numBeacons - numDistBeacons then false else dropBeacon in
  (dropBeacon, numBeacons, numDistBeacons).

End Methods.

Definition and_then {A B} (o : Outcome A) (k : A -> Outcome B) : Outcome B :=
  match o with
  | Ok a => k a
  | Raise e => Raise e
  end.

Notation "x <~ o ;; k" := (and_then o (fun x => k))
  (at level 61, o at next level, right associativity) : method_scope.
Notation "' p <~ o ;; k" := (and_then o (fun x => let 'p := x in k))
  (at level 61, p pattern, o at next level, right associativity) : method_scope.
Notation "' p <- m ;; k" := (bind m (fun x => let 'p := x in k))
  (at level 61, p pattern, m at next level, right associativity) : method_scope.

Section BeaconPolicy.
Context {helpers : Helpers} {env : Env}.

(** The corner test of [beaconCheck]: the mean poses of the first and of the
    last 40% of the history, and the last step. *)
Definition turnCheck (r : Robot) : Outcome bool :=
  '(pos1, yaw1) <~ averagePose (slice_to (int (0.4 * float_of_Z (hislen r))) (history r)) ;;
  '(pos2, yaw2) <~ averagePose (slice_from (int (0.6 * float_of_Z (hislen r))) (history r)) ;;
  (* Check that we've turned and moved far enough, over history and last second *)
  if gtb (getDist pos1 pos2) 4 && gtb (PrimFloat.abs (angleDiff yaw1 yaw2)) 30
  then
    before <~ index (history r) (-2) ;;
    last <~ index (history r) (-1) ;;
    Ok (gtb (getDist (Pose.position before) (Pose.position last)) 0.5)
  else Ok false.

(** The drop rules of [beaconCheck] once past the minimum anchor distance:
    the flag, the reason and the distance to check the beacons against. *)
Definition dropRules (r : Robot) (anchorDist : float) : Outcome (bool * string * float) :=
  let dropBeacon := false in
  let dropReason := "" in
  (* Beacon distance based drop only kicks in once out of anchor range *)
  let checkDist := maxAnchorDist r in
  (* If we're at end of anchor range, drop beacon *)
  let '(dropBeacon, dropReason, checkDist) :=
    if gtb anchorDist (maxAnchorDist r) && negb (delayDrop r)
    then (true, "anchor distance", maxDist r)
    else (dropBeacon, dropReason, checkDist) in
  (* Always drop a beacon if we're at a node and we're in comm *)
  if Agent.atnode (agent r)
  then Ok (true, "at junction", junctionDist r)
  (* Check if it looks like we're going around a corner *)
  else if turnDetect r && (len (history r) =? hislen r)
  then
    turned <~ turnCheck r ;;
    Ok (if turned : bool
        then (true, "at turn", (junctionDist r + 5)%float)
        else (dropBeacon, dropReason, checkDist))
  else Ok (dropBeacon, dropReason, checkDist).

Definition reclassify (numDistBeacons : Z) (dropReason : string) : string :=
  if (0 <? numDistBeacons) && (String.eqb dropReason "" || String.eqb dropReason "anchor distance")
  then "beacon distance"
  else dropReason.

(** The test that prevents dropping after returning home after the first
    beacon drop. *)
Definition deadband (r : Robot) (pose : Pose.t) (numBeacons : Z) (anchorDist : float) : bool :=
  (0 <? numBeacons)
  && PrimFloat.ltb anchorDist (maxAnchorDist r)
  && PrimFloat.ltb (Point.y (Pose.position pose)) 1
  && gtb (Point.y (Pose.position pose)) 1.

(** The in-comm rules of [beaconCheck] after the minimum anchor distance
    test: whether to drop, and why. *)
Definition dropDecision (r : Robot) (pose : Pose.t) (anchorDist : float)
    : Outcome (bool * string) :=
  '(dropBeacon, dropReason, checkDist) <~ dropRules r anchorDist ;;
  let '(dropBeacon, numBeacons, numDistBeacons) := beaconDistCheck r pose checkDist dropBeacon in
  let dropReason := reclassify numDistBeacons dropReason in
  let dropBeacon := if deadband r pose numBeacons anchorDist then false else dropBeacon in
  Ok (dropBeacon, dropReason).

(** The comm-loss branch of [beaconCheck]. *)
Definition reverseDropCheck (pose : Pose.t) : M unit :=
  modify (fun r => r <| beaconCommLost ::= fun n => n + 1 |>) ;;
  r <- get ;;
  (* If we're not talking to the base station, attempt to reverse drop *)
  when (5 <? beaconCommLost r)
    ((* Check if we've already attempted a reverse drop in this area *)
     when (existsb (fun bl => PrimFloat.ltb (getDist (Pose.position pose) bl) (junctionDist r))
                   (bl_beacons r))
       (modify (fun r => r <| reverseDrop := false |>) ;;
        log (loginfo (id r ^^ " skipping reverse drop due to previous try"))) ;;
     r <- get ;;
     (* Change the mode to deploy, and add to the list of previously tried positions *)
     when (reverseDrop r)
       (modify (fun r => r <| mode := "Deploy" |>
                           <| bl_beacons ::= fun l => l ++ [Pose.position pose] |>)) ;;
     (* Reset the counter so we don't attempt again right away *)
     modify (fun r => r <| beaconCommLost := 0 |>)).

Definition beaconCheck : M unit :=
  r <- get ;;
  (* Check if we need to drop a beacon if we have any beacons to drop *)
  when (0 <? numBeacons r)
    (let pose := Agent.odometry (agent r) in
     (* We're connected to the mesh, either through anchor or beacon(s) *)
     if Base.incomm (base r)
     then
       (* Reset to global config so we can manipulate after cancelled drops *)
       modify (fun r => r <| beaconCommLost := 0 |> <| reverseDrop := reverseDropEnable r |>) ;;
       r <- get ;;
       let anchorDist := getDist (Pose.position pose) (anchorPos r) in
       (* If we're too close (like for the initial node drop), never drop a beacon *)
       if PrimFloat.ltb anchorDist (minAnchorDist r)
       then ret tt
       else
         '(dropBeacon, dropReason) <- lift (dropDecision r pose anchorDist) ;;
         when dropBeacon
           (if delayDrop r
            then modify (fun r => r <| delayDrop := false |>)
            else deployBeacon true dropReason)
     else if reverseDrop r
     then reverseDropCheck pose
     else ret tt).

End BeaconPolicy.

Section Cycle.
Context {helpers : Helpers} {env : Env}.

Definition artifactCheckReport : M unit :=
  r <- get ;;
  (* If we didn't add anything new, check if any still need reported *)
  when (negb (report r))
    (when (existsb (fun artifact => String.eqb (Artifact.agent_id artifact) (id r)
                                    && negb (Artifact.reported artifact))
                   (values (artifacts r)))
       (modify (fun r => r <| report := true |>))) ;;
  (* Identify our report so we can track that the base station has seen it *)
  r <- get ;;
  when (report r) (log (loginfo "will report...")).

(** The stuck test of [run]: the oldest against the newest pose of the
    history window. [and] evaluates its second operand, and with it the
    name [math], only when the first holds. *)
Definition isStuck (r : Robot) : Outcome bool :=
  oldest <~ index (history r) 0 ;;
  newest <~ index (history r) (-1) ;;
  if PrimFloat.ltb (getDist (Pose.position oldest) (Pose.position newest)) 0.5
  then
    math <~ Globals.math ;;
    Ok (PrimFloat.ltb
          (PrimFloat.abs (angleDiff (Math.degrees math (getYaw (Pose.orientation oldest)))
                                    (Math.degrees math (getYaw (Pose.orientation newest)))))
          60)
  else Ok false.

Definition isOrigin (p : Point.t) : bool :=
  PrimFloat.eqb (Point.x p) 0 && PrimFloat.eqb (Point.y p) 0 && PrimFloat.eqb (Point.z p) 0.

(** The blacklist step of [run], at the stopCheck intervals. The window
    length is ten times the integer rate, so its half is exact. *)
Definition commitBlacklist : M unit :=
  r <- get ;;
  (* Get the average goal position *)
  avgGoal <- lift (averagePosition (blgoals r)) ;;
  (* Remove outliers *)
  let newgoals :=
    filter (fun goal => PrimFloat.ltb (getDist goal avgGoal) (deconflictRadius r * 2))
           (blgoals r) in
  (* Get the new average goal position, and only if there are enough *)
  when (hislen r / 2 <? len newgoals)
    (avgGoal <- lift (averagePosition newgoals) ;;
     (* Make sure it's not the origin *)
     when (negb (isOrigin avgGoal))
       (super (addBlacklist avgGoal) ;;
        modify (fun r => r <| blgoals := [] |>))).

(** The stuck counter of [run]: it counts the cycles over which the history
    window stays put, and collects the goals of those cycles. *)
Definition stuckCount : M unit :=
  r <- get ;;
  (* Check if we've been stopped if we have a goal *)
  stopped <- lift (isStuck r) ;;
  if stopped : bool
  then
    (* Add the current goal to potential blacklist points *)
    modify (fun r => r <| stuck ::= fun n => n + 1 |>
                       <| blgoals ::= fun l =>
                            l ++ [Pose.position (Goal.pose (Agent.goal (agent r)))] |>)
  else modify (fun r => r <| stuck := 0 |> <| blgoals := [] |>).

(** If stuck, report and append to blacklist so we don't try to go here
    again. *)
Definition stuckReport : M unit :=
  r <- get ;;
  when (stopCheck r <=? stuck r)
    ((* Only add to the blacklist at the stopCheck intervals *)
     m <- lift (pymod (stuck r) (stopCheck r)) ;;
     when (m =? 0) commitBlacklist ;;
     super (updateStatus "Stuck") ;;
     r <- get ;;
     log (loginfo (id r ^^ " has not moved!"))).

(** The status checks of [run], once the mission has started. *)
Definition statusChecks : M unit :=
  r <- get ;;
  when (startedMission r && negb (String.eqb (Agent.status (agent r)) "Stop")
        && negb (contains "A"%char (id r)))
    (match Goal.path (Agent.goal (agent r)) with
     | _ :: _ => when (len (history r) =? hislen r) (stuckCount ;; stuckReport)
     | [] =>
         (* Report no path available *)
         super (updateStatus "No Path")
     end).

(** The newest task of the GUI; the result is [checkBeacon]. *)
Definition manageTask : M bool :=
  r <- get ;;
  if Agent.guiAccept (agent r)
  then
    checkBeacon <-
      (if String.eqb (Agent.guiTaskName (agent r)) "task"
       then
         let value := Agent.guiTaskValue (agent r) in
         checkBeacon <-
           (if String.eqb value "Explore" || String.eqb value "Start"
            then modify (fun r => r <| mode := "Explore" |>) ;; ret true
            else if String.eqb value "Home"
            then modify (fun r => r <| mode := "Home" |>) ;; ret true
            else if String.eqb value "Stop"
            then modify (fun r => r <| mode := "Stop" |>) ;; ret true
            else if String.eqb value "Goal"
            then modify (fun r => r <| mode := "Goal" |>) ;; ret true
            else if String.eqb value "Deploy"
            then
              deployBeacon true "GUI Command" ;;
              modify (fun r => r <| mode := "Explore" |>) ;;
              ret false
            else ret true) ;;
         (* Disable the estop.  'Stop' will re-enable it *)
         call (stop_pub true) ;;
         ret checkBeacon
       else super publishGUITask ;; ret true) ;;
    modify (fun r => r <| agent -> Agent.guiAccept := false |>) ;;
    ret checkBeacon
  else ret true.

(** The neighbours with current goal information, as of the time [now]. *)
Definition countNeighbors (now : Z) : M unit :=
  r <- get ;;
  (* Time check for "current" neighbors.  Make sure we don't have negative time. *)
  let neighbor_check :=
    if commThreshold r * 30 <? now then now - commThreshold r * 30 else now in
  num_neighbors <-
    fold_each (values (neighbors r)) 0
      (fun num_neighbors neighbor =>
         (* Get our neighbors' artifacts so we can deconflict reporting *)
         super (artifactCheckNeighbor (Neighbor.id neighbor)) ;;
         ret (if neighbor_check <? Neighbor.lastMessage neighbor
              then num_neighbors + 1
              else num_neighbors)) ;;
  (* Publish the number of neighbors that frontier exploration should consider *)
  call (num_pub num_neighbors).

(** The report test of [run]; the result tells whether [run] returns here. *)
Definition reportCheck : M bool :=
  r <- get ;;
  if report r
  then
    (* Once we see the base has our latest artifact report we can stop going home *)
    if solo r || String.eqb (Base.lastArtifact (base r)) (Agent.lastArtifact (agent r))
    then
      (* Turn off reporting *)
      modify (fun r => r <| report := false |>
                         <| artifacts ::= map (fun '(k, artifact) =>
                              (k, artifact <| Artifact.reported := true |>)) |>) ;;
      (* Resume normal operation (check mode or explore) *)
      log (loginfo (id r ^^ " resuming operation...")) ;;
      ret false
    else
      when (negb (String.eqb (Agent.status (agent r)) "Report"))
        (log (loginfo (id r ^^ " return to report..."))) ;;
      super (setGoalPoint "Report") ;;
      (* Don't check for other mode when in report *)
      ret true
  else ret false.

(** The mode from the GUI or the multi-agent logic, or normal exploration. *)
Definition modeArbiter : M unit :=
  r <- get ;;
  if String.eqb (mode r) "Home"
  then super (setGoalPoint "Home")
  else if String.eqb (mode r) "Stop"
  then super stop
  else if String.eqb (mode r) "Deploy"
  then
    log (loginfo (id r ^^ " reverse deploy mode")) ;;
    if Base.incomm (base r)
    then
      (* Wait for a solid connection before dropping *)
      regain <- match regainBase r with
                | Some n => ret n
                | None => raise "AttributeError"
                end ;;
      if 5 <? regain
      then
        (* Make sure there's no beacons already in the area *)
        let pose := Agent.odometry (agent r) in
        let checkDist := junctionDist r in
        let '(dropBeacon, _, _) := beaconDistCheck r pose checkDist true in
        (if dropBeacon
         then deployBeacon true "Regain comms"
         else log (loginfo (id r ^^ " beacon too close, cancelling drop"))) ;;
        modify (fun r => r <| mode := "Explore" |> <| regainBase := Some 0 |>)
      else modify (fun r => r <| regainBase := Some (regain + 1) |>)
    else
      modify (fun r => r <| regainBase := Some 0 |>) ;;
      super (updateStatus "Regain comms deploy") ;;
      super (setGoalPoint "Home")
  else if String.eqb (mode r) "Goal"
  then
    if PrimFloat.ltb (getDist (position r)
                              (Pose.position (Agent.guiGoalPoint (agent r)))) 1
    then
      log (loginfo (id r ^^ " resuming exploration...")) ;;
      modify (fun r => r <| mode := "Explore" |>) ;;
      (* May want to add other options for tasks when it reaches the goal *)
      deconflictExplore
    else
      when (negb (String.eqb (Agent.status (agent r)) "guiCommand"))
        (log (loginfo (id r ^^ " setting GUI Goal Point..."))) ;;
      super (setGoalPoint "guiCommand")
  else
    (* Normal exploration with coordination *)
    deconflictExplore.

(** Aerial robots keep maps from being merged until they are airborne. *)
Definition aerialMaps (now : Z) : M unit :=
  r <- get ;;
  if isAerial r && negb (launch_status r) && negb (Reset.ignore (Agent.reset (agent r)))
  then
    log (loginfo "ignore aerial maps until launched") ;;
    modify (fun r => r <| agent -> Agent.reset := Reset.mk now (id r) true true |>
                       <| agent -> Agent.guiStamp := now |>)
  else if isAerial r && launch_status r && Reset.ignore (Agent.reset (agent r))
  then
    log (loginfo "aerial robot launched, stop ignoring maps") ;;
    modify (fun r => r <| agent -> Agent.reset := Reset.mk now (id r) false true |>
                       <| agent -> Agent.guiStamp := now |>)
  else ret tt.

(** Decide which goal to go to based on status in this precedence: report
    artifacts, then the mode (GUI return home, GUI stop, GUI goal point,
    explore). *)
Definition selectGoal (now : Z) : M bool :=
  returned <- reportCheck ;;
  if returned : bool
  then ret true
  else
    (* Check for a mode from GUI or MA, or explore normally *)
    modeArbiter ;;
    aerialMaps now ;;
    ret true.

(** One control cycle, at the time [now]. *)
Definition run (now : Z) : M bool :=
  r <- get ;;
  (* Update our comm status for anyone who needs it *)
  call (comm_pub (Base.incomm (base r))) ;;
  (* Update movement history *)
  updateHistory ;;
  (* Do status checks once we've started the mission *)
  statusChecks ;;
  (* Manage the newest task sent *)
  checkBeacon <- manageTask ;;
  (* Check whether to drop a beacon, as long as we weren't commanded by the GUI *)
  when checkBeacon beaconCheck ;;
  countNeighbors now ;;
  (* Make sure our internal artifact list is up to date, and if we need to report *)
  super artifactCheckAgent ;;
  artifactCheckReport ;;
  selectGoal now.

End Cycle.

(** ** A concrete environment to run the model in *)

(** The helpers the runs below use. *)
Module Euclid.

Definition sq (a : float) : float := (a * a)%float.

(** Modelled from the spec: [util.helpers.getDist], which is not in src/:
    the distance between two points. *)
Definition getDist (pos1 pos2 : Point.t) : float :=
  PrimFloat.sqrt (sq (Point.x pos1 - Point.x pos2)
                  + sq (Point.y pos1 - Point.y pos2)
                  + sq (Point.z pos1 - Point.z pos2))%float.

Definition total (f : Point.t -> float) (positions : list Point.t) : float :=
  fold_left (fun acc p => (acc + f p)%float) positions 0%float.

(** Modelled from the spec: [util.helpers.averagePosition], which is not in
    src/: the mean of a list of points, the sum divided by the length. *)
Definition averagePosition (positions : list Point.t) : Outcome Point.t :=
  match positions with
  | [] => Raise "ZeroDivisionError"
  | _ =>
      let n := float_of_Z (len positions) in
      Ok (Point.mk (total Point.x positions / n)
                   (total Point.y positions / n)
                   (total Point.z positions / n))%float
  end.

(** Modelled from the spec: [util.helpers.getYaw], which is not in src/:
    the heading of an orientation. Primitive floats have no trigonometry:
    the yaw of a rotation about the vertical axis, [2 * asin (z q)] radians,
    is taken to first order (exact for the identity, 81 degrees instead of
    90 for a quarter turn). *)
Definition getYaw (q : Quaternion.t) : float := (2 * Quaternion.z q)%float.

(** Radians to degrees. *)
Definition degrees (a : float) : float := (a * 57.29577951308232)%float.

(** Modelled from the spec: [util.helpers.angleDiff], which is not in src/:
    the difference of two headings in degrees, here for headings less than
    a half turn apart. *)
Definition angleDiff (a b : float) : float := (a - b)%float.

(** Modelled from the spec: [util.helpers.averagePose], which is not in
    src/: the mean position of a list of poses and their mean heading, in
    degrees. *)
Definition averagePose (poses : list Pose.t) : Outcome (Point.t * float) :=
  match averagePosition (map Pose.position poses) with
  | Raise e => Raise e
  | Ok pos =>
      let n := float_of_Z (len poses) in
      let yaw := fold_left (fun acc p => (acc + getYaw (Pose.orientation p))%float)
                           poses 0%float in
      Ok (pos, degrees (yaw / n))
  end.

Definition helpers : Helpers :=
  Build_Helpers getDist getYaw averagePose averagePosition angleDiff.

End Euclid.

(** The collaborators that never raise and whose inherited methods leave the
    robot object alone. *)
Definition quiet : Env := {|
  raises := fun _ _ => None;
  parentEffect := fun _ r => r
|}.

(** A deployment mechanism that fails: the trigger of the drop raises. *)
Definition jammed : Env := {|
  raises := fun _ e => match e with
                       | deploy_breadcrumb_pub => Some "mechanism jammed"
                       | _ => None
                       end;
  parentEffect := fun _ r => r
|}.

Definition upright : Quaternion.t := Quaternion.mk 0 0 0 1.
Definition at_xy (x y : float) : Pose.t := Pose.mk (Point.mk x y 0) upright.

(** The attributes as [__init__] assigns them under the default parameters,
    for a robot named [name] cycling at [hz] (the history window is ten
    seconds of cycles); the attributes of the parent class start empty. *)
Definition init (name : string) (hz : Z) : Robot := {|
  id := name;
  rate := hz;
  deconflictRadius := 2.5;
  stopCheck := 30;
  maxAnchorDist := 100;
  maxDist := 30;
  junctionDist := 10;
  turnDetect := true;
  delayDrop := false;
  reverseDropEnable := false;
  reverseDrop := false;
  anchorPos := Point.mk 1.0 0.0 0.1;
  hislen := hz * 10;
  minAnchorDist := 10;
  useSimComms := false;
  useIgnition := true;
  useVirtual := false;
  useTraj := false;
  solo := false;
  commThreshold := 2;
  startedMission := false;
  initialPose := None;
  bl_beacons := [];
  history := [];
  report := false;
  newStatus := None;
  statusCount := 0;
  beaconCommLost := 0;
  baseRegain := 0;
  regainBase := None;
  mode := "Explore";
  stuck := 0;
  planner_status := true;
  launch_status := true;
  isAerial := false;
  wait := true;
  stopStart := false;
  agent := {|
    Agent.odometry := at_xy 0 0;
    Agent.goal := Goal.mk (at_xy 0 0) [];
    Agent.exploreGoal := at_xy 0 0;
    Agent.explorePath := [];
    Agent.status := "";
    Agent.atnode := false;
    Agent.lastArtifact := "";
    Agent.guiAccept := false;
    Agent.guiTaskName := "";
    Agent.guiTaskValue := "";
    Agent.guiGoalPoint := at_xy 0 0;
    Agent.guiStamp := 0;
    Agent.reset := Reset.mk 0 "" false false
  |};
  base := Base.mk true "";
  beacons := [];
  numBeacons := 0;
  blgoals := [];
  neighbors := [];
  artifacts := []
|}.

Definition start (r : Robot) : World := mkWorld r [].

(** ** Vocabulary of the properties *)

Section Vocabulary.
Context {helpers : Helpers}.

(** An active beacon is beyond the check distance of a pose when the test of
    [beaconDistCheck] counts it as past range, and within it otherwise. *)
Definition beyond (pose : Pose.t) (checkDist : float) (beacon : Beacon.t) : bool :=
  gtb (getDist (Pose.position pose) (Beacon.pos beacon)) checkDist.

Definition activeBeyond (pose : Pose.t) (checkDist : float) (beacon : Beacon.t) : bool :=
  Beacon.active beacon && beyond pose checkDist beacon.

Definition activeWithin (pose : Pose.t) (checkDist : float) (beacon : Beacon.t) : bool :=
  Beacon.active beacon && negb (beyond pose checkDist beacon).

Definition activeBeacons (r : Robot) : list Beacon.t :=
  filter Beacon.active (values (beacons r)).

End Vocabulary.

(** The flag that [beaconDistCheck] returns. *)
Definition dropFlag (result : bool * Z * Z) : bool := fst (fst result).

(** ** Sample robots *)

Definition beaconAt (name : string) (x y : float) (deployed : bool) : string * Beacon.t :=
  (name, Beacon.mk name (negb deployed) deployed (Point.mk x y 0) deployed).

(** Two deployed beacons 3 and 4 units from the origin, one still carried. *)
Definition twoNear : Robot :=
  (init "X1" 1) <| beacons := [beaconAt "B1" 3 0 true; beaconAt "B2" 0 4 true;
                               beaconAt "B3" 0 0 false] |>
                <| numBeacons := 1 |>.

(** One deployed beacon in range and one 50 units away. *)
Definition nearAndFar : Robot :=
  (init "X1" 1) <| beacons := [beaconAt "B1" 3 0 true; beaconAt "B2" 50 0 true;
                               beaconAt "B3" 0 0 false] |>
                <| numBeacons := 1 |>.

(** Two deployed beacons, both 50 units away. *)
Definition twoFar : Robot :=
  (init "X1" 1) <| beacons := [beaconAt "B1" 50 0 true; beaconAt "B2" 0 50 true;
                               beaconAt "B3" 0 0 false] |>
                <| numBeacons := 1 |>.

(** Three beacons on board, none deployed. *)
Definition loaded : Robot :=
  (init "X1" 1) <| beacons := [beaconAt "B1" 0 0 false; beaconAt "B2" 0 0 false;
                               beaconAt "B3" 0 0 false] |>
                <| numBeacons := 3 |>.

(** ** Vocabulary of the deployment sequence *)

Section DeployVocabulary.
Context {env : Env}.

(** The deployment trigger raises: the virtual drop, or the mechanism of the
    configuration at hand (the simulator's service, or the deploy topic). *)
Definition triggerFails (r : Robot) : Prop :=
  (forall tr, raises tr deploy_breadcrumb_pub <> None)
  \/ (useSimComms r = true /\ forall tr model p, raises tr (set_state model p) <> None)
  \/ (useSimComms r = false /\ forall tr, raises tr (deploy_pub true) <> None).

(** The inherited [stop] leaves the beacon registry and the simulation
    switch alone. *)
Definition stopKeepsBeacons : Prop :=
  forall r, numBeacons (parentEffect stop r) = numBeacons r
            /\ beacons (parentEffect stop r) = beacons r
            /\ useSimComms (parentEffect stop r) = useSimComms r.

End DeployVocabulary.

(** The owned-beacon count and the beacon registry. *)
Definition registry (w : World) : Z * list (string * Beacon.t) :=
  (numBeacons (self w), beacons (self w)).

(** No beacon of the list is owned and still inactive. *)
Definition noneAvailable (bs : list Beacon.t) : Prop :=
  forall b, In b bs -> Beacon.owner b && negb (Beacon.active b) = false.

(** A robot that believes it carries a beacon, all three being deployed. *)
Definition allDeployed : Robot :=
  (init "X1" 1) <| beacons := [beaconAt "B1" 3 0 true; beaconAt "B2" 20 0 true;
                               beaconAt "B3" 40 0 true] |>
                <| numBeacons := 1 |>
                <| mode := "Deploy" |>.

(** ** Vocabulary of the reverse drop *)

Section ReverseDropVocabulary.
Context {helpers : Helpers} {env : Env}.

(** A reverse drop was already attempted within the junction spacing of the
    current position. *)
Definition triedNearby (r : Robot) : bool :=
  existsb (fun bl => PrimFloat.ltb (getDist (position r) bl) (junctionDist r)) (bl_beacons r).

(** A beacon check under comm loss, with beacons on board and the reverse
    drop enabled, on which the loss counter exceeds its threshold. *)
Definition commLossEpisode (w : World) : Prop :=
  0 < numBeacons (self w)
  /\ Base.incomm (base (self w)) = false
  /\ reverseDrop (self w) = true
  /\ 5 < beaconCommLost (self w) + 1.

(** The beacon check attempts a reverse drop: it switches to Deploy and
    records the current position as an attempted site. *)
Definition attemptsReverseDrop (w : World) : Prop :=
  let w' := snd (beaconCheck w) in
  mode (self w') = "Deploy"
  /\ bl_beacons (self w') = bl_beacons (self w) ++ [position (self w)].

(** The beacon check skips the reverse drop and disables it. *)
Definition skipsReverseDrop (w : World) : Prop :=
  let w' := snd (beaconCheck w) in
  mode (self w') = mode (self w)
  /\ bl_beacons (self w') = bl_beacons (self w)
  /\ reverseDrop (self w') = false.

(** The inherited methods preserve a property of the robot object. *)
Definition parentKeeps (I : Robot -> Prop) : Prop :=
  forall c r, I r -> I (parentEffect c r).

End ReverseDropVocabulary.

(** A method preserves a property of the robot object, whether it returns
    or raises. *)
Definition keeps {A} (I : Robot -> Prop) (m : M A) : Prop :=
  forall w, I (self w) -> I (self (snd (m w))).

Definition reverseDropIs (e : bool) (r : Robot) : Prop := reverseDrop r = e.

(** ** Vocabulary of the stuck detector *)

Section StuckVocabulary.
Context {helpers : Helpers} {env : Env}.

(** The guards under which [run] looks at the history window: the mission
    has started, the agent is not stopped, the robot is not an aerial one
    (no 'A' in its name), it has a path to its goal, and the window is
    full. *)
Definition detectionRuns (r : Robot) : Prop :=
  startedMission r = true
  /\ String.eqb (Agent.status (agent r)) "Stop" = false
  /\ contains "A"%char (id r) = false
  /\ Goal.path (Agent.goal (agent r)) <> []
  /\ len (history r) = hislen r.

(** One more cycle stuck, and the current goal as a blacklist candidate. *)
Definition countStuck (r : Robot) : Robot :=
  r <| stuck ::= fun n => n + 1 |>
    <| blgoals ::= fun l => l ++ [Pose.position (Goal.pose (Agent.goal (agent r)))] |>.

Definition resetStuck (r : Robot) : Robot := r <| stuck := 0 |> <| blgoals := [] |>.

(** The candidates that the outlier filter of the blacklist step keeps. *)
Definition survivors (r : Robot) (avgGoal : Point.t) : list Point.t :=
  filter (fun goal => PrimFloat.ltb (getDist goal avgGoal) (deconflictRadius r * 2))
         (blgoals r).

(** What [run] does on every cycle it finds the robot stuck, after the
    blacklist step. *)
Definition reportStuck : M unit :=
  super (updateStatus "Stuck") ;;
  r <- get ;;
  log (loginfo (id r ^^ " has not moved!")).

End StuckVocabulary.

(** The points a trace commits to the goal blacklist. *)
Definition committed (tr : list Event) : list Point.t :=
  flat_map (fun e => match e with
                     | parent (addBlacklist p) => [p]
                     | _ => []
                     end) tr.

(** ** Sample missions *)

Definition goalAt (x y : float) : Goal.t := Goal.mk (at_xy x y) [at_xy x y].

Definition far : Point.t := Point.mk 100 100 0.

(** Ten samples along the x axis, [step] apart, starting at [x0]. *)
Definition track (x0 step : float) : list Pose.t :=
  map (fun k => at_xy (x0 + step * float_of_Z k)%float 0) [0; 1; 2; 3; 4; 5; 6; 7; 8; 9].

Definition exploring : Robot :=
  (init "X1" 1) <| startedMission := true |> <| initialPose := Some (at_xy 0 0) |>
                <| agent -> Agent.status := "Explore" |>.

(** The stuck counter at three, the robot moving one unit per cycle, with an
    empty path. *)
Definition movingNoPath : Robot :=
  exploring <| history := track 0 1 |> <| agent -> Agent.odometry := at_xy 10 0 |>
            <| stuck := 3 |> <| blgoals := [far; far; far] |>.

(** The stuck counter at three, the robot not moving, with an empty path. *)
Definition idleNoPath : Robot :=
  exploring <| history := track 20 0 |> <| agent -> Agent.odometry := at_xy 20 0 |>
            <| stuck := 3 |> <| blgoals := [far; far; far] |>.

(** The same two robots with a goal at (100, 100) and a path to it. *)
Definition idle : Robot := idleNoPath <| agent -> Agent.goal := goalAt 100 100 |>.
Definition moving : Robot := movingNoPath <| agent -> Agent.goal := goalAt 100 100 |>.

(** Twelve candidates close to (3, 4), the stuck counter at thirty. *)
Definition stuckAtThirty : Robot :=
  idle <| stuck := 30 |> <| blgoals := repeat (Point.mk 3 4 0) 12%nat |>.

(** A pending report (the base has seen artifact a1, the agent's latest is
    a2) while the GUI has commanded Stop. *)
Definition reporting : Robot :=
  exploring <| report := true |> <| mode := "Stop" |>
            <| agent -> Agent.lastArtifact := "a2" |>
            <| base := Base.mk true "a1" |>.

Definition quarterTurn : Quaternion.t := Quaternion.mk 0 0 0.7071 0.7071.

(** At a junction 150 units out, past the anchor range, having just turned
    a corner, with one beacon on board. *)
Definition atCorner : Robot :=
  loaded <| numBeacons := 1 |>
         <| startedMission := true |>
         <| agent -> Agent.atnode := true |>
         <| agent -> Agent.odometry := Pose.mk (Point.mk 150 20 0) quarterTurn |>
         <| history := [at_xy 140 0; at_xy 141 0; at_xy 142 0; at_xy 143 0;
                        at_xy 146 0; at_xy 148 2;
                        Pose.mk (Point.mk 150 8 0) quarterTurn;
                        Pose.mk (Point.mk 150 12 0) quarterTurn;
                        Pose.mk (Point.mk 150 16 0) quarterTurn;
                        Pose.mk (Point.mk 150 20 0) quarterTurn] |>.

(** Out of comm for five checks at (50, 0), reverse drop enabled, no
    attempt on record; and the same at (53, 0) with the attempt at (50, 0)
    on record. *)
Definition lostFirst : Robot :=
  loaded <| reverseDropEnable := true |> <| reverseDrop := true |>
         <| base := Base.mk false "" |>
         <| beaconCommLost := 5 |>
         <| agent -> Agent.odometry := at_xy 50 0 |>.

Definition lostAgain : Robot :=
  lostFirst <| agent -> Agent.odometry := at_xy 53 0 |>
            <| bl_beacons := [Point.mk 50 0 0] |>.

(** ** Vocabulary of a whole cycle *)

Section CycleVocabulary.
Context {helpers : Helpers} {env : Env}.


(** The world in which [run] starts its status checks: the comm status
    published and the history updated. *)
Definition atStatusChecks (w : World) : World :=
  snd (updateHistory (w <| trace ::= fun tr => tr ++ [comm_pub (Base.incomm (base (self w)))] |>)).

(** The oldest and the newest pose of the history window are less than 0.5
    apart: the first operand of the stuck test holds. *)
Definition stationary (r : Robot) : Prop :=
  exists oldest newest,
    index (history r) 0 = Ok oldest
    /\ index (history r) (-1) = Ok newest
    /\ PrimFloat.ltb (getDist (Pose.position oldest) (Pose.position newest)) 0.5 = true.

(** The inherited methods leave the stuck counter alone. *)
Definition parentLeavesStuck : Prop := forall c r, stuck (parentEffect c r) = stuck r.

End CycleVocabulary.

(** The stuck counter is still [n], or was reset. *)
Definition stuckFrozen (n : Z) (r : Robot) : Prop := stuck r = n \/ stuck r = 0.


(** ** Vocabulary of the further properties *)

Section HistoryVocabulary.
Context {helpers : Helpers}.

(** The robot is farther than 5 from the pose it started at. *)
Definition leftStart (r : Robot) : bool :=
  match initialPose r with
  | Some initial => gtb (getDist (position r) (Pose.position initial)) 5
  | None => false
  end.

Definition latchMission (r : Robot) : Robot :=
  match initialPose r with
  | None => r <| initialPose := Some (Agent.odometry (agent r)) |>
  | Some _ => if negb (startedMission r) && leftStart r
              then r <| startedMission := true |> else r
  end.

Definition appendPose (r : Robot) : Robot :=
  r <| history ::= fun h => h ++ [Agent.odometry (agent r)] |>.

Definition trimHistory (r : Robot) : Robot :=
  if hislen r <? len (history r) then r <| history ::= slice_from (- hislen r) |> else r.

End HistoryVocabulary.

(** What one call of [getStatus] does to the robot: the additional status
    is dropped once the counter is past 5, and the counter counts
    otherwise. *)
Definition statusTick (r : Robot) : Robot :=
  if 5 <? statusCount r
  then r <| newStatus := None |> <| statusCount := 0 |>
  else r <| statusCount ::= fun n => n + 1 |>.

(** [n] calls of a method in a row, the results dropped. *)
Fixpoint times {A} (n : nat) (m : M A) : M unit :=
  match n with
  | O => ret tt
  | S n' => m ;; times n' m
  end.

Fixpoint repeated {A} (n : nat) (f : A -> A) (a : A) : A :=
  match n with
  | O => a
  | S n' => repeated n' f (f a)
  end.

(** The reasons for a drop that [beaconCheck] hands to the deployment
    sequence. *)
Definition knownReason (s : string) : Prop :=
  s = "anchor distance" \/ s = "at junction" \/ s = "at turn" \/ s = "beacon distance".

(** What a beacon check in comm does first: the loss counter restarts and
    the reverse drop is as configured. *)
Definition restoreComm (r : Robot) : Robot :=
  r <| beaconCommLost := 0 |> <| reverseDrop := reverseDropEnable r |>.

(** The events of a trace other than log lines: what was sent to the
    collaborators. *)
Definition isLog (e : Event) : bool :=
  match e with
  | loginfo _ | logerr _ | print_result => true
  | _ => false
  end.

Definition sent (tr : list Event) : list Event := filter (fun e => negb (isLog e)) tr.

(** No call to a collaborator raises. *)
Definition neverRaises {env : Env} : Prop := forall tr e, raises tr e = None.

(** ** Vocabulary of the cycle *)

(** An artifact of this agent is not reported yet. *)
Definition ownUnreported (r : Robot) : bool :=
  existsb (fun artifact => String.eqb (Artifact.agent_id artifact) (id r)
                           && negb (Artifact.reported artifact))
          (values (artifacts r)).

(** The base has acknowledged the latest artifact of the agent, or the robot
    works alone. *)
Definition acknowledged (r : Robot) : bool :=
  solo r || String.eqb (Base.lastArtifact (base r)) (Agent.lastArtifact (agent r)).

(** The guards of the status checks of [run], before the path and the
    window are looked at. *)
Definition checksStatus (r : Robot) : bool :=
  startedMission r && negb (String.eqb (Agent.status (agent r)) "Stop")
  && negb (contains "A"%char (id r)).

(** The reset record that the aerial gate writes. *)
Definition markReset (now : Z) (ignore : bool) (r : Robot) : Robot :=
  r <| agent -> Agent.reset := Reset.mk now (id r) ignore true |>
    <| agent -> Agent.guiStamp := now |>.

(** The time before which a neighbour's last message is not current. *)
Definition neighborCheck (r : Robot) (now : Z) : Z :=
  if commThreshold r * 30 <? now then now - commThreshold r * 30 else now.

Definition isCurrent (r : Robot) (now : Z) (neighbor : Neighbor.t) : bool :=
  neighborCheck r now <? Neighbor.lastMessage neighbor.

(** The mode a GUI task value asks for, if it is one of the mode commands. *)
Definition commandedMode (value : string) : option string :=
  if String.eqb value "Explore" || String.eqb value "Start" then Some "Explore"
  else if String.eqb value "Home" then Some "Home"
  else if String.eqb value "Stop" then Some "Stop"
  else if String.eqb value "Goal" then Some "Goal"
  else None.

(** A property of worlds that holds after a method whenever it holds
    before, whether the method returns or raises. *)
Definition always {A} (J : World -> Prop) (m : M A) : Prop :=
  forall w, J w -> J (snd (m w)).

(** The planner is healthy and the trace has committed the points [ps] to
    the blacklist. *)
Definition plannerOk (ps : list Point.t) (w : World) : Prop :=
  planner_status (self w) = true /\ committed (trace w) = ps.

Definition isAddBlacklist (e : Event) : bool :=
  match e with
  | parent (addBlacklist _) => true
  | _ => false
  end.

(** ** Further sample robots *)

(** An additional status on display, the display counter at zero. *)
Definition flagged : Robot := (init "X1" 1) <| newStatus := Some "Stuck" |>.

(** The registry of [nearAndFar] in the opposite order. *)
Definition farAndNear : Robot := nearAndFar <| beacons ::= @rev (string * Beacon.t) |>.

(** [atCorner] with the drop delayed by the operator. *)
Definition delayed : Robot := atCorner <| delayDrop := true |>.

(** A pending report that the base has acknowledged, with one artifact of
    the agent and one of a neighbour on record. *)
Definition heard : Robot :=
  reporting <| base := Base.mk true "a2" |>
            <| artifacts := [("a1", Artifact.mk "a1" "X1" true);
                             ("a2", Artifact.mk "a2" "X1" false);
                             ("b1", Artifact.mk "b1" "X2" false)] |>.

(** Back in comm on the way to a reverse drop, the regain counter at zero. *)
Definition regaining : Robot := allDeployed <| regainBase := Some 0 |>.

(** A stuck-time threshold of zero cycles, on a robot that stays put and on
    one that moves. *)
Definition noThreshold : Robot := idle <| stopCheck := 0 |>.
Definition movingNoThreshold : Robot := moving <| stopCheck := 0 |>.

(** Two neighbours at time 100, one heard at 90 and one last heard at 10. *)
Definition inCompany : Robot :=
  exploring <| neighbors := [("X2", Neighbor.mk "X2" 90); ("X3", Neighbor.mk "X3" 10)] |>.

(** The operator has sent the task Home. *)
Definition calledHome : Robot :=
  exploring <| agent -> Agent.guiAccept := true |>
            <| agent -> Agent.guiTaskName := "task" |>
            <| agent -> Agent.guiTaskValue := "Home" |>.

(** Stopped by the operator, with an empty path. *)
Definition stopped : Robot := idleNoPath <| agent -> Agent.status := "Stop" |>.

(** In comm for six cycles on the way to a reverse drop, a deployed beacon
    three units away. *)
Definition settled : Robot :=
  allDeployed <| regainBase := Some 6 |> <| agent -> Agent.odometry := at_xy 0 0 |>.

(** * Properties *)

(** ** beaconDistCheck *)

Section DistCheck.
Context {helpers : Helpers}.
Variables (pose : Pose.t) (checkDist : float).

Lemma len_cons {A} (a : A) (l : list A) : len (a :: l) = len l + 1.
Proof. unfold len. cbn [List.length]. lia. Qed.

Lemma len_nonneg {A} (l : list A) : 0 <= len l.
Proof. unfold len. lia. Qed.

Lemma len_filter_cons {A} (f : A -> bool) (a : A) (l : list A) :
  len (filter f (a :: l)) = (if f a then 1 else 0) + len (filter f l).
Proof. cbn [filter]. destruct (f a); rewrite ?len_cons; lia. Qed.

Lemma distCheckStep_eq (b : Beacon.t) (dropBeacon : bool) (n k : Z) :
  distCheckStep pose checkDist (dropBeacon, n, k) b
  = (dropBeacon || activeBeyond pose checkDist b,
     n + (if Beacon.active b then 1 else 0),
     k + (if activeBeyond pose checkDist b then 1 else 0)).
Proof.
  unfold distCheckStep, activeBeyond, beyond.
  destruct (Beacon.active b); cbn [andb].
  - destruct (gtb _ _); rewrite ?orb_true_r, ?orb_false_r, ?Z.add_0_r; reflexivity.
  - rewrite orb_false_r, !Z.add_0_r. reflexivity.
Qed.

(** The loop of [beaconDistCheck] counts the active beacons and those among
    them beyond the check distance, and raises the flag on any of the
    latter. *)
Lemma distCheck_loop (l : list Beacon.t) (dropBeacon : bool) (n k : Z) :
  fold_left (distCheckStep pose checkDist) l (dropBeacon, n, k)
  = (dropBeacon || existsb (activeBeyond pose checkDist) l,
     n + len (filter Beacon.active l),
     k + len (filter (activeBeyond pose checkDist) l)).
Proof.
  revert dropBeacon n k.
  induction l as [|b l IH]; intros dropBeacon n k.
  - cbn. rewrite orb_false_r, !Z.add_0_r. reflexivity.
  - cbn [fold_left existsb]. rewrite distCheckStep_eq, IH, !len_filter_cons.
    rewrite orb_assoc, !Z.add_assoc. reflexivity.
Qed.

Lemma beaconDistCheck_eq (r : Robot) (dropBeacon : bool) :
  beaconDistCheck r pose checkDist dropBeacon
  = let n := len (activeBeacons r) in
    let k := len (filter (activeBeyond pose checkDist) (values (beacons r))) in
    (if 0 <? n - k then false
     else dropBeacon || existsb (activeBeyond pose checkDist) (values (beacons r)),
     n, k).
Proof.
  unfold beaconDistCheck. rewrite distCheck_loop. reflexivity.
Qed.

(** The active beacons are those beyond and those within. *)
Lemma active_split (l : list Beacon.t) :
  len (filter Beacon.active l)
  = len (filter (activeBeyond pose checkDist) l) + len (filter (activeWithin pose checkDist) l).
Proof.
  induction l as [|b l IH]; [reflexivity|].
  rewrite !len_filter_cons, IH. unfold activeBeyond, activeWithin.
  destruct (Beacon.active b), (beyond pose checkDist b); cbn [andb negb]; lia.
Qed.

Lemma within_positive (l : list Beacon.t) (b : Beacon.t) :
  In b l -> activeWithin pose checkDist b = true ->
  0 < len (filter (activeWithin pose checkDist) l).
Proof.
  intros Hin Hb.
  assert (Hf : In b (filter (activeWithin pose checkDist) l)) by (apply filter_In; auto).
  destruct (filter (activeWithin pose checkDist) l); [destruct Hf|].
  rewrite len_cons. pose proof (len_nonneg l0). lia.
Qed.

Lemma all_beyond (l : list Beacon.t) :
  (forall b, In b l -> Beacon.active b = true -> beyond pose checkDist b = true) ->
  len (filter (activeWithin pose checkDist) l) = 0.
Proof.
  induction l as [|b l IH]; intros H; [reflexivity|].
  cbn [filter]. unfold activeWithin at 1.
  destruct (Beacon.active b) eqn:Ha; cbn [andb].
  - rewrite (H b (or_introl eq_refl) Ha). cbn. apply IH. intros; apply H; auto. now right.
  - apply IH. intros; apply H; auto. now right.
Qed.

Lemma some_active_beyond (l : list Beacon.t) (b : Beacon.t) :
  In b l -> Beacon.active b = true -> beyond pose checkDist b = true ->
  existsb (activeBeyond pose checkDist) l = true.
Proof.
  intros Hin Ha Hb. apply existsb_exists. exists b. split; [assumption|].
  unfold activeBeyond. now rewrite Ha, Hb.
Qed.

Lemma no_active (l : list Beacon.t) :
  filter Beacon.active l = [] ->
  existsb (activeBeyond pose checkDist) l = false
  /\ len (filter (activeBeyond pose checkDist) l) = 0.
Proof.
  induction l as [|b l IH]; intros H; [split; reflexivity|].
  cbn [filter] in H. cbn [existsb filter]. unfold activeBeyond at 1 3.
  destruct (Beacon.active b); [discriminate|]. cbn [andb orb]. auto.
Qed.

(** C4. Whenever more than one already-active beacon lies within the check
    distance of the pose, [beaconDistCheck] returns [dropBeacon = False],
    whatever flag the caller passed in. *)
Theorem beaconDistCheck_redundant (r : Robot) (dropBeacon : bool) :
  1 < len (filter (activeWithin pose checkDist) (values (beacons r))) ->
  dropFlag (beaconDistCheck r pose checkDist dropBeacon) = false.
Proof.
  intros Hmany. rewrite beaconDistCheck_eq. cbv zeta. unfold dropFlag, activeBeacons. cbn [fst].
  rewrite active_split.
  destruct (Z.ltb_spec 0
    (len (filter (activeBeyond pose checkDist) (values (beacons r)))
     + len (filter (activeWithin pose checkDist) (values (beacons r)))
     - len (filter (activeBeyond pose checkDist) (values (beacons r))))); [reflexivity|lia].
Qed.

(** C10. [beaconDistCheck] returns [False] as soon as one active beacon, even
    exactly one, lies within the check distance; it returns [True], whatever
    the flag passed in, when there are active beacons and all of them are
    beyond the check distance; and it returns the flag passed in when no
    beacon is active. *)
Theorem beaconDistCheck_cases (r : Robot) (dropBeacon : bool) :
  ((exists b, In b (activeBeacons r) /\ beyond pose checkDist b = false) ->
   dropFlag (beaconDistCheck r pose checkDist dropBeacon) = false)
  /\ (activeBeacons r <> [] ->
      (forall b, In b (activeBeacons r) -> beyond pose checkDist b = true) ->
      dropFlag (beaconDistCheck r pose checkDist dropBeacon) = true)
  /\ (activeBeacons r = [] ->
      dropFlag (beaconDistCheck r pose checkDist dropBeacon) = dropBeacon).
Proof.
  rewrite beaconDistCheck_eq. cbv zeta. unfold dropFlag. cbn [fst].
  unfold activeBeacons. rewrite active_split.
  repeat split.
  - intros (b & Hin & Hb). apply filter_In in Hin as [Hin Ha].
    assert (0 < len (filter (activeWithin pose checkDist) (values (beacons r)))).
    { apply within_positive with b; [assumption|]. unfold activeWithin. now rewrite Ha, Hb. }
    destruct (Z.ltb_spec 0
      (len (filter (activeBeyond pose checkDist) (values (beacons r)))
       + len (filter (activeWithin pose checkDist) (values (beacons r)))
       - len (filter (activeBeyond pose checkDist) (values (beacons r))))); [reflexivity|lia].
  - intros Hne Hall.
    rewrite all_beyond.
    2:{ intros b Hin Ha. apply Hall. apply filter_In. auto. }
    replace (_ + 0 - _) with 0 by lia. cbn.
    destruct (filter Beacon.active (values (beacons r))) as [|b l] eqn:Hf; [congruence|].
    assert (Hin : In b (filter Beacon.active (values (beacons r)))) by (rewrite Hf; now left).
    pose proof (Hall b (or_introl eq_refl)) as Hb. apply filter_In in Hin as [Hin Ha].
    rewrite (some_active_beyond _ b Hin Ha Hb). apply orb_true_r.
  - intros Hnone. destruct (no_active _ Hnone) as [He Hk].
    rewrite He, Hk.
    pose proof (active_split (values (beacons r))) as Hs. rewrite Hnone, Hk in Hs.
    cbn in Hs. rewrite <- Hs. cbn. apply orb_false_r.
Qed.

End DistCheck.

(** C4 on [twoNear], with the flag raised by the caller. *)
Lemma beaconDistCheck_redundant_witness :
  dropFlag (beaconDistCheck (helpers := Euclid.helpers) twoNear (at_xy 0 0) 10 true) = false.
Proof.
  apply beaconDistCheck_redundant. vm_compute. reflexivity.
Defined.

(** C10 on the three kinds of registries. *)
Lemma beaconDistCheck_cases_witness :
  dropFlag (beaconDistCheck (helpers := Euclid.helpers) nearAndFar (at_xy 0 0) 10 true) = false
  /\ dropFlag (beaconDistCheck (helpers := Euclid.helpers) twoFar (at_xy 0 0) 10 false) = true
  /\ dropFlag (beaconDistCheck (helpers := Euclid.helpers) loaded (at_xy 0 0) 10 true) = true.
Proof.
  split; [|split].
  - apply (beaconDistCheck_cases (helpers := Euclid.helpers)).
    exists (snd (beaconAt "B1" 3 0 true)). split; [left; reflexivity | vm_compute; reflexivity].
  - apply (beaconDistCheck_cases (helpers := Euclid.helpers)).
    + discriminate.
    + intros b [<- | [<- | []]]; vm_compute; reflexivity.
  - apply (beaconDistCheck_cases (helpers := Euclid.helpers) (at_xy 0 0) 10 loaded true).
    reflexivity.
Defined.

(** ** Worlds *)

Lemma self_upd_self (w : World) (f : Robot -> Robot) :
  self (w <| self ::= f |>) = f (self w).
Proof. reflexivity. Qed.

Lemma self_upd_trace (w : World) (f : list Event -> list Event) :
  self (w <| trace ::= f |>) = self w.
Proof. reflexivity. Qed.

Lemma trace_upd_self (w : World) (f : Robot -> Robot) :
  trace (w <| self ::= f |>) = trace w.
Proof. reflexivity. Qed.

Lemma trace_upd_trace (w : World) (f : list Event -> list Event) :
  trace (w <| trace ::= f |>) = f (trace w).
Proof. reflexivity. Qed.

Create Rewrite HintDb world.
#[local] Hint Rewrite self_upd_self self_upd_trace trace_upd_self trace_upd_trace : world.

(** Case analysis on the next call to a collaborator. *)
Ltac split_raises :=
  cbv beta;
  match goal with
  | |- context [raises ?t ?e] =>
      let E := fresh "E" in
      destruct (raises t e) eqn:E; cbn [fst snd self trace]
  end.

(** ** deployBeacon *)

Section Deploy.
Context {helpers : Helpers} {env : Env}.

Lemma find_all_false {A} (f : A -> bool) (l : list A) :
  (forall a, In a l -> f a = false) -> find f l = None.
Proof.
  induction l as [|a l IH]; intros H; [reflexivity|].
  cbn. rewrite (H a (or_introl eq_refl)). apply IH. intros; apply H; now right.
Qed.

(** C7. The deployment sequence invoked when the agent holds no beacon that
    is owned and inactive deploys nothing (it only writes a log line and
    leaves the registry as it is), sets the owned-beacon count to zero and
    forces the mode to Explore. *)
Theorem deployBeacon_none (inplace : bool) (dropReason : string) (w : World) :
  noneAvailable (values (beacons (self w))) ->
  let result := deployBeacon inplace dropReason w in
  fst result = Ok tt
  /\ numBeacons (self (snd result)) = 0
  /\ mode (self (snd result)) = "Explore"
  /\ beacons (self (snd result)) = beacons (self w)
  /\ trace (snd result) = trace w ++ [loginfo (id (self w) ^^ " no beacon to deploy")].
Proof.
  intros Hnone. unfold deployBeacon, bind, get.
  unfold first_available. rewrite (find_all_false _ _ Hnone). cbn.
  repeat split.
Qed.

(** With a beacon available, the sequence leaves the count and the registry
    as [stop] left them, whatever the trigger would do: the sequence never
    gets past the names [math] and [Empty]. *)
Lemma deployBeacon_available (inplace : bool) (dropReason deploy : string) (w : World) :
  truthy (first_available (values (beacons (self w)))) = Some deploy ->
  stopKeepsBeacons ->
  registry (snd (deployBeacon inplace dropReason w)) = registry w.
Proof.
  intros Hsel Hstop.
  destruct (Hstop (self w)) as (Hn & Hb & Hs).
  pose proof (f_equal2 pair Hn Hb) as Hreg.
  unfold deployBeacon, bind at 1, get. rewrite Hsel.
  unfold super, try_except, bind, call, modify, log, lift, when, ret, Globals.math, Globals.Empty.
  cbn [self trace fst snd].
  split_raises; [reflexivity|].
  split_raises; [exact Hreg|].
  autorewrite with world. rewrite Hs.
  destruct (useSimComms (self w)) eqn:Hsim.
  - split_raises; exact Hreg.
  - exact Hreg.
Qed.

Lemma deployBeacon_registry (inplace : bool) (dropReason deploy : string) (w : World) :
  truthy (first_available (values (beacons (self w)))) = Some deploy ->
  stopKeepsBeacons ->
  triggerFails (self w) ->
  registry (snd (deployBeacon inplace dropReason w)) = registry w.
Proof.
  intros Hsel Hstop _. apply (deployBeacon_available inplace dropReason deploy w Hsel Hstop).
Qed.

(** C8. If the deployment trigger raises during the deployment sequence, the
    sequence ends without marking the selected beacon active (the registry
    is as before) and with the owned-beacon count unchanged. *)
Theorem deployBeacon_trigger_error (inplace : bool) (dropReason deploy : string) (w : World) :
  truthy (first_available (values (beacons (self w)))) = Some deploy ->
  stopKeepsBeacons ->
  triggerFails (self w) ->
  let result := deployBeacon inplace dropReason w in
  numBeacons (self (snd result)) = numBeacons (self w)
  /\ beacons (self (snd result)) = beacons (self w).
Proof.
  intros Hsel Hstop Hfail result.
  pose proof (deployBeacon_registry inplace dropReason deploy w Hsel Hstop Hfail) as H.
  unfold registry in H. fold result in H. injection H as Hn Hb. split; assumption.
Qed.

End Deploy.

(** C7 on a robot whose three beacons are all deployed already. *)
Lemma deployBeacon_none_witness :
  let result := deployBeacon (helpers := Euclid.helpers) (env := quiet)
                  true "at junction" (start allDeployed) in
  fst result = Ok tt
  /\ numBeacons (self (snd result)) = 0
  /\ mode (self (snd result)) = "Explore"
  /\ beacons (self (snd result)) = beacons allDeployed
  /\ trace (snd result) = [loginfo "X1 no beacon to deploy"].
Proof.
  apply (deployBeacon_none (helpers := Euclid.helpers) (env := quiet)
           true "at junction" (start allDeployed)).
  intros b [<- | [<- | [<- | []]]]; reflexivity.
Defined.

(** C8 on a loaded robot whose virtual drop raises. *)
Lemma deployBeacon_trigger_error_witness :
  let result := deployBeacon (helpers := Euclid.helpers) (env := jammed)
                  true "at junction" (start loaded) in
  numBeacons (self (snd result)) = 3
  /\ beacons (self (snd result)) = beacons loaded.
Proof.
  apply (deployBeacon_trigger_error (helpers := Euclid.helpers) (env := jammed)
           true "at junction" "B1" (start loaded)).
  - reflexivity.
  - intros r. repeat split.
  - left. intros tr. discriminate.
Defined.

(** ** Invariants along a method *)

Section Keeps.
Context {env : Env}.
Variable I : Robot -> Prop.

Lemma keeps_ret {A} (a : A) : keeps I (ret a).
Proof. intros w H. exact H. Qed.

Lemma keeps_bind {A B} (m : M A) (k : A -> M B) :
  keeps I m -> (forall a, keeps I (k a)) -> keeps I (bind m k).
Proof.
  intros Hm Hk w H. unfold bind. specialize (Hm w H).
  destruct (m w) as [[a|e] w']; cbn [snd] in *; [apply Hk|]; assumption.
Qed.

Lemma keeps_get : keeps I get.
Proof. intros w H. exact H. Qed.

Lemma keeps_modify (f : Robot -> Robot) : (forall r, I r -> I (f r)) -> keeps I (modify f).
Proof. intros Hf w H. apply Hf, H. Qed.

Lemma keeps_raise {A} (e : string) : keeps I (@raise A e).
Proof. intros w H. exact H. Qed.

Lemma keeps_lift {A} (o : Outcome A) : keeps I (lift o).
Proof. intros w H. exact H. Qed.

Lemma keeps_log (e : Event) : keeps I (log e).
Proof. intros w H. exact H. Qed.

Lemma keeps_call (e : Event) : keeps I (call e).
Proof. intros w H. unfold call. destruct (raises _ _); exact H. Qed.

Lemma keeps_super (c : ParentCall) : parentKeeps I -> keeps I (super c).
Proof.
  intros Hc. apply keeps_bind; [apply keeps_call|]. intros _. apply keeps_modify, Hc.
Qed.

Lemma keeps_try (body : M unit) (handler : string -> M unit) :
  keeps I body -> (forall e, keeps I (handler e)) -> keeps I (try_except body handler).
Proof.
  intros Hb Hh w H. unfold try_except. specialize (Hb w H).
  destruct (body w) as [[a|e] w']; cbn [snd] in *; [|apply Hh]; assumption.
Qed.

Lemma keeps_when (b : bool) (m : M unit) : keeps I m -> keeps I (when b m).
Proof. intros Hm. destruct b; [exact Hm | apply keeps_ret]. Qed.

End Keeps.

(** One step through a method, for a property that its own assignments
    leave alone. *)
Ltac keeps_step HP :=
  match goal with
  | |- keeps _ (bind _ _) => apply keeps_bind; [|intros ?]
  | |- keeps _ (ret _) => apply keeps_ret
  | |- keeps _ get => apply keeps_get
  | |- keeps _ (log _) => apply keeps_log
  | |- keeps _ (call _) => apply keeps_call
  | |- keeps _ (super _) => apply keeps_super, HP
  | |- keeps _ (lift _) => apply keeps_lift
  | |- keeps _ (raise _) => apply keeps_raise
  | |- keeps _ (when _ _) => apply keeps_when
  | |- keeps _ (try_except _ _) => apply keeps_try; [|intros ?]
  | |- keeps _ (modify _) => apply keeps_modify; intros ? ?; first [assumption | reflexivity]
  | |- keeps _ (if ?b then _ else _) => destruct b
  | |- keeps _ (match ?o with _ => _ end) => destruct o
  end.

(** ** The drop rules of beaconCheck *)

Lemma SFltb_asym (a b : spec_float) : SFltb a b = true -> SFltb b a = false.
Proof.
  unfold SFltb.
  destruct a as [sa|sa| |sa ma ea], b as [sb|sb| |sb mb eb]; cbn;
    try destruct sa; try destruct sb; cbn; try congruence.
  - rewrite (Z.compare_antisym ea eb). destruct (ea ?= eb)%Z; cbn; try congruence.
    rewrite !Pos.compare_cont_spec. cbn. rewrite (Pos.compare_antisym ma mb).
    destruct (ma ?= mb)%positive; cbn; congruence.
  - rewrite (Z.compare_antisym ea eb). destruct (ea ?= eb)%Z; cbn; try congruence.
    rewrite !Pos.compare_cont_spec. cbn. rewrite (Pos.compare_antisym ma mb).
    destruct (ma ?= mb)%positive; cbn; congruence.
Qed.

Lemma ltb_asym (a b : float) : PrimFloat.ltb a b = true -> PrimFloat.ltb b a = false.
Proof. rewrite !ltb_spec. apply SFltb_asym. Qed.

(** No float is both below and above another: not a number, an infinity or
    a zero of either sign included. *)
Lemma lt_and_gt (a b : float) : PrimFloat.ltb a b && gtb a b = false.
Proof.
  unfold gtb. destruct (PrimFloat.ltb a b) eqn:H; [|reflexivity].
  rewrite (ltb_asym _ _ H). reflexivity.
Qed.

Section Policy.
Context {helpers : Helpers} {env : Env}.

Lemma deadband_false (r : Robot) (pose : Pose.t) (numBeacons : Z) (anchorDist : float) :
  deadband r pose numBeacons anchorDist = false.
Proof.
  unfold deadband. rewrite <- andb_assoc, lt_and_gt. apply andb_false_r.
Qed.

(** C9. The test of the lateral deadband asks for [position.y < 1] and
    [position.y > 1] at once, which no pose satisfies: the test is false in
    every state, so its branch never sets [dropBeacon] to [False], and the
    decision of the in-comm rules is the flag of [beaconDistCheck] with the
    reclassified reason. *)
Theorem deadband_unreachable (r : Robot) (pose : Pose.t) (anchorDist : float) :
  (forall numBeacons, deadband r pose numBeacons anchorDist = false)
  /\ dropDecision r pose anchorDist
     = ('(dropBeacon, dropReason, checkDist) <~ dropRules r anchorDist ;;
        let '(dropBeacon, _, numDistBeacons) := beaconDistCheck r pose checkDist dropBeacon in
        Ok (dropBeacon, reclassify numDistBeacons dropReason)).
Proof.
  split; [intros n; apply deadband_false|].
  unfold dropDecision. destruct (dropRules r anchorDist) as [[[d reason] cd]|e]; [|reflexivity].
  cbn [and_then]. destruct (beaconDistCheck r pose cd d) as [[d' n] k].
  rewrite deadband_false. reflexivity.
Qed.

Lemma dropRules_atnode (r : Robot) (anchorDist : float) :
  Agent.atnode (agent r) = true ->
  dropRules r anchorDist = Ok (true, "at junction", junctionDist r).
Proof.
  intros H. unfold dropRules. destruct (gtb _ _ && _); rewrite H; reflexivity.
Qed.

Lemma reclassify_junction (k : Z) : reclassify k "at junction" = "at junction".
Proof. unfold reclassify. destruct (0 <? k); reflexivity. Qed.

Lemma dropDecision_atnode (r : Robot) (pose : Pose.t) (anchorDist : float) :
  Agent.atnode (agent r) = true ->
  dropDecision r pose anchorDist
  = Ok (dropFlag (beaconDistCheck r pose (junctionDist r) true), "at junction").
Proof.
  intros H. unfold dropDecision. rewrite (dropRules_atnode _ _ H). cbn [and_then].
  destruct (beaconDistCheck r pose (junctionDist r) true) as [[d n] k].
  rewrite deadband_false, reclassify_junction. reflexivity.
Qed.

(** C5. On a beacon check in comm, past the minimum anchor distance, with
    the robot at a junction: whatever the anchor-distance and the turn
    conditions (both true included), the rules leave the reason at
    "at junction" and the check distance at the junction spacing, the
    beacon-distance reclassification keeps that reason, and it is the reason
    handed to the deployment sequence. *)
Theorem junction_precedes (w : World) :
  let r := self w in
  let pose := Agent.odometry (agent r) in
  let anchorDist := getDist (Pose.position pose) (anchorPos r) in
  0 < numBeacons r ->
  Base.incomm (base r) = true ->
  PrimFloat.ltb anchorDist (minAnchorDist r) = false ->
  Agent.atnode (agent r) = true ->
  dropRules r anchorDist = Ok (true, "at junction", junctionDist r)
  /\ (forall numDistBeacons, reclassify numDistBeacons "at junction" = "at junction")
  /\ dropDecision r pose anchorDist
     = Ok (dropFlag (beaconDistCheck r pose (junctionDist r) true), "at junction")
  /\ beaconCheck w
     = (modify (fun r => r <| beaconCommLost := 0 |> <| reverseDrop := reverseDropEnable r |>) ;;
        when (dropFlag (beaconDistCheck r pose (junctionDist r) true))
          (if delayDrop r
           then modify (fun r => r <| delayDrop := false |>)
           else deployBeacon true "at junction")) w.
Proof.
  intros r pose anchorDist Hn Hc Hmin Hnode. subst r pose anchorDist.
  split; [apply dropRules_atnode, Hnode|].
  split; [apply reclassify_junction|].
  split; [apply dropDecision_atnode, Hnode|].
  unfold beaconCheck. unfold bind at 1, get.
  apply Z.ltb_lt in Hn. rewrite Hn. cbn [when]. rewrite Hc.
  unfold bind at 1 3, modify at 1 2. unfold bind at 1, get. rewrite !self_upd_self.
  cbv beta.
  set (r1 := (self w) <| beaconCommLost := 0 |> <| reverseDrop := reverseDropEnable (self w) |>).
  assert (Hnode1 : Agent.atnode (agent r1) = true) by exact Hnode.
  assert (Hmin1 : PrimFloat.ltb
                    (getDist (Pose.position (Agent.odometry (agent (self w)))) (anchorPos r1))
                    (minAnchorDist r1) = false) by exact Hmin.
  rewrite Hmin1. unfold bind, lift. rewrite (dropDecision_atnode _ _ _ Hnode1).
  reflexivity.
Qed.

End Policy.

(** ** The reverse drop *)

Section ReverseDrop.
Context {helpers : Helpers} {env : Env}.

(** The comm-loss branch past the threshold: skip and disable when a
    reverse drop was tried nearby, attempt and record the site otherwise. *)
Lemma beaconCheck_commLoss (w : World) :
  commLossEpisode w ->
  beaconCheck w
  = if triedNearby (self w)
    then (Ok tt,
          w <| self ::= (fun r => r <| reverseDrop := false |> <| beaconCommLost := 0 |>) |>
            <| trace ::= (fun tr => tr ++ [loginfo (id (self w)
                                    ^^ " skipping reverse drop due to previous try")]) |>)
    else (Ok tt,
          w <| self ::= (fun r => r <| mode := "Deploy" |>
                                  <| bl_beacons ::= (fun l => l ++ [position r]) |>
                                  <| beaconCommLost := 0 |>) |>).
Proof.
  intros (Hn & Hc & Hr & Hlost).
  unfold beaconCheck, bind at 1, get. apply Z.ltb_lt in Hn. rewrite Hn. cbn [when].
  rewrite Hc, Hr. unfold reverseDropCheck.
  unfold bind at 1, modify at 1. unfold bind at 1, get. rewrite !self_upd_self. cbv beta.
  apply Z.ltb_lt in Hlost.
  change (beaconCommLost ((self w) <| beaconCommLost ::= (fun n => n + 1) |>))
    with (beaconCommLost (self w) + 1).
  rewrite Hlost. cbn [when].
  change (existsb _ _) with (triedNearby (self w)).
  destruct (triedNearby (self w)).
  - cbn [when]. unfold bind, modify, log, get, when. cbn [self trace fst snd]. reflexivity.
  - cbn [when]. unfold bind, modify, log, get, when, ret. cbn [self trace fst snd].
    rewrite !self_upd_self. cbv beta.
    change (reverseDrop _) with (reverseDrop (self w)). rewrite Hr. reflexivity.
Qed.

(** With the reverse drop disabled, a beacon check out of comm does
    nothing at all. *)
Lemma beaconCheck_disabled (w : World) :
  Base.incomm (base (self w)) = false ->
  reverseDrop (self w) = false ->
  beaconCheck w = (Ok tt, w).
Proof.
  intros Hc Hr. unfold beaconCheck, bind, get.
  destruct (0 <? numBeacons (self w)); [|reflexivity].
  cbn [when]. rewrite Hc, Hr. reflexivity.
Qed.

Lemma deconflictExplore_keeps (I : Robot -> Prop) :
  parentKeeps I ->
  (forall r v, I r -> I (r <| stopStart := true |> <| agent -> Agent.status := v |>)) ->
  (forall r g, I r -> I (r <| agent -> Agent.goal := g |>)) ->
  keeps I deconflictExplore.
Proof.
  intros HP Hstatus Hgoal. unfold deconflictExplore.
  repeat first [ keeps_step HP
               | apply keeps_modify; intros ? ?; first [apply Hstatus | apply Hgoal]; assumption ].
Qed.

Lemma deployBeacon_keeps_reverseDrop (e inplace : bool) (reason : string) :
  parentKeeps (reverseDropIs e) -> keeps (reverseDropIs e) (deployBeacon inplace reason).
Proof.
  intros HP. unfold deployBeacon, activate.
  repeat first [ keeps_step HP
               | apply deconflictExplore_keeps; [exact HP | intros ? ? H; exact H ..] ].
Qed.

(** In comm, a beacon check with beacons on board leaves the reverse drop
    as the configuration has it. *)
Lemma beaconCheck_reenables (w : World) :
  parentKeeps (reverseDropIs (reverseDropEnable (self w))) ->
  0 < numBeacons (self w) ->
  Base.incomm (base (self w)) = true ->
  reverseDrop (self (snd (beaconCheck w))) = reverseDropEnable (self w).
Proof.
  intros HP Hn Hc. unfold beaconCheck. unfold bind at 1. unfold get at 1.
  apply Z.ltb_lt in Hn. rewrite Hn. cbn [when]. rewrite Hc.
  unfold bind at 1, modify at 1.
  match goal with
  | |- reverseDrop (self (snd (?m ?w1))) = ?e =>
      cut (keeps (reverseDropIs e) m); [intros Hk; apply (Hk w1); reflexivity|]
  end.
  repeat first [ keeps_step HP | apply deployBeacon_keeps_reverseDrop, HP ].
Qed.

(** C6. Under comm loss with the reverse drop enabled, once the loss counter
    exceeds its threshold: a recorded attempt within the junction spacing of
    the current position makes the check skip the attempt and disable the
    reverse drop, and otherwise the mode becomes Deploy and the position is
    recorded. Disabled, the reverse drop stays so on every check out of
    comm, and a check in comm restores the configured setting. Hence of two
    comm-loss episodes, the second at a site within the junction spacing of
    the first and with the attempts of the first still on record, at most
    one attempts a reverse drop. *)
Theorem reverseDrop_dedup :
  (forall w, commLossEpisode w -> triedNearby (self w) = true ->
     fst (beaconCheck w) = Ok tt /\ skipsReverseDrop w)
  /\ (forall w, commLossEpisode w -> triedNearby (self w) = false ->
        fst (beaconCheck w) = Ok tt /\ attemptsReverseDrop w)
  /\ (forall w, Base.incomm (base (self w)) = false -> reverseDrop (self w) = false ->
        beaconCheck w = (Ok tt, w))
  /\ (forall w, parentKeeps (reverseDropIs (reverseDropEnable (self w))) ->
        0 < numBeacons (self w) -> Base.incomm (base (self w)) = true ->
        reverseDrop (self (snd (beaconCheck w))) = reverseDropEnable (self w))
  /\ (forall w1 w2,
        commLossEpisode w1 -> commLossEpisode w2 ->
        incl (bl_beacons (self (snd (beaconCheck w1)))) (bl_beacons (self w2)) ->
        PrimFloat.ltb (getDist (position (self w2)) (position (self w1)))
                      (junctionDist (self w2)) = true ->
        ~ (attemptsReverseDrop w1 /\ attemptsReverseDrop w2)).
Proof.
  assert (Hskip : forall w, commLossEpisode w -> triedNearby (self w) = true ->
                    fst (beaconCheck w) = Ok tt /\ skipsReverseDrop w).
  { intros w He Ht. unfold skipsReverseDrop.
    rewrite (beaconCheck_commLoss w He), Ht. repeat split. }
  split; [exact Hskip|].
  split.
  { intros w He Ht. unfold attemptsReverseDrop.
    rewrite (beaconCheck_commLoss w He), Ht. repeat split. }
  split; [exact beaconCheck_disabled|].
  split; [exact beaconCheck_reenables|].
  intros w1 w2 He1 He2 Hincl Hnear [[_ Hsite1] [_ Hsite2]].
  assert (Hin : In (position (self w1)) (bl_beacons (self w2))).
  { apply Hincl. rewrite Hsite1. apply in_or_app. right. now left. }
  assert (Ht : triedNearby (self w2) = true).
  { unfold triedNearby. apply existsb_exists. exists (position (self w1)). auto. }
  destruct (Hskip w2 He2 Ht) as [_ (_ & Hsame & _)].
  rewrite Hsame in Hsite2.
  apply (f_equal (@List.length _)) in Hsite2. rewrite length_app in Hsite2. cbn in Hsite2. lia.
Qed.

End ReverseDrop.

(** ** The history window *)

Section HistoryWindow.
Context {helpers : Helpers} {env : Env}.

Lemma len_app {A} (l l' : list A) : len (l ++ l') = len l + len l'.
Proof. unfold len. rewrite length_app. lia. Qed.

Lemma updateHistory_eq (w : World) :
  updateHistory w
  = (Ok tt, mkWorld (trimHistory (appendPose (latchMission (self w)))) (trace w)).
Proof.
  unfold updateHistory, bind, get, modify, when, ret, trimHistory, appendPose, latchMission, leftStart.
  destruct (initialPose (self w)) as [initial|] eqn:Hi; cbn [fst snd].
  - destruct (startedMission (self w)) eqn:Hs; cbn [negb andb orb].
    + rewrite !self_upd_self. cbv beta.
      match goal with |- context [if ?c then _ else _] => destruct c end; reflexivity.
    + destruct (gtb _ _); rewrite !self_upd_self; cbv beta;
        match goal with |- context [if ?c then _ else _] => destruct c end; reflexivity.
  - rewrite !self_upd_self. cbv beta.
    match goal with |- context [if ?c then _ else _] => destruct c end; reflexivity.
Qed.

End HistoryWindow.

(** ** The stuck detector *)

Section Stuck.
Context {helpers : Helpers} {env : Env}.

Lemma statusChecks_runs (w : World) :
  detectionRuns (self w) ->
  statusChecks w = (stuckCount ;; stuckReport) w.
Proof.
  intros (Hs & Hst & Hid & Hp & Hl).
  unfold statusChecks. unfold bind at 1. unfold get at 1.
  rewrite Hs, Hst, Hid. cbn [negb andb when].
  destruct (Goal.path _); [congruence|].
  apply Z.eqb_eq in Hl. rewrite Hl. reflexivity.
Qed.

Lemma stuckCount_eq (w : World) (stopped : bool) :
  isStuck (self w) = Ok stopped ->
  stuckCount w = (Ok tt, w <| self ::= if stopped then countStuck else resetStuck |>).
Proof.
  intros H. unfold stuckCount, bind, get, lift. rewrite H. destruct stopped; reflexivity.
Qed.

(** The stuck test never answers [True]: where its first operand holds, the
    second looks the name [math] up. *)
Lemma isStuck_never (r : Robot) : isStuck r <> Ok true.
Proof.
  unfold isStuck.
  destruct (index (history r) 0) as [oldest|e]; cbn [and_then]; [|discriminate].
  destruct (index (history r) (-1)) as [newest|e]; cbn [and_then]; [|discriminate].
  destruct (PrimFloat.ltb _ _); cbn; discriminate.
Qed.

Lemma isStuck_stationary (r : Robot) : stationary r -> isStuck r = Raise "NameError".
Proof.
  intros (oldest & newest & Ho & Hn & Hd). unfold isStuck.
  rewrite Ho, Hn. cbn [and_then]. rewrite Hd. reflexivity.
Qed.

Lemma stuckCount_raises (w : World) (e : string) :
  isStuck (self w) = Raise e -> stuckCount w = (Raise e, w).
Proof. intros H. unfold stuckCount, bind, get, lift. rewrite H. reflexivity. Qed.

Lemma stuckCount_frozen (n : Z) : keeps (stuckFrozen n) stuckCount.
Proof.
  intros w H. unfold stuckCount, bind, get, lift.
  destruct (isStuck (self w)) as [[|]|e] eqn:E; cbn [fst snd].
  - destruct (isStuck_never _ E).
  - right. reflexivity.
  - exact H.
Qed.

Lemma keeps_fold_each {A S} (I : Robot -> Prop) (l : list A) (s : S) (body : S -> A -> M S) :
  (forall s a, keeps I (body s a)) -> keeps I (fold_each l s body).
Proof.
  intros Hbody. revert s. induction l as [|a l IH]; intros s; cbn [fold_each].
  - apply keeps_ret.
  - apply keeps_bind; [apply Hbody | intros s'; apply IH].
Qed.

(** No method of the cycle raises the stuck counter. *)
Ltac frozen_step HP :=
  first [ keeps_step HP
        | apply stuckCount_frozen
        | apply keeps_fold_each; intros ? ? ].

Lemma deployBeacon_frozen (n : Z) (inplace : bool) (reason : string) :
  parentKeeps (stuckFrozen n) -> keeps (stuckFrozen n) (deployBeacon inplace reason).
Proof.
  intros HP. unfold deployBeacon, activate, deconflictExplore. repeat frozen_step HP.
Qed.

Lemma statusChecks_frozen (n : Z) :
  parentKeeps (stuckFrozen n) -> keeps (stuckFrozen n) statusChecks.
Proof.
  intros HP. unfold statusChecks, stuckReport, commitBlacklist. repeat frozen_step HP.
Qed.

Lemma beaconCheck_frozen (n : Z) :
  parentKeeps (stuckFrozen n) -> keeps (stuckFrozen n) beaconCheck.
Proof.
  intros HP. unfold beaconCheck, reverseDropCheck.
  repeat first [ frozen_step HP | apply deployBeacon_frozen, HP ].
Qed.

Lemma selectGoal_frozen (n now : Z) :
  parentKeeps (stuckFrozen n) -> keeps (stuckFrozen n) (selectGoal now).
Proof.
  intros HP. unfold selectGoal, reportCheck, modeArbiter, aerialMaps, deconflictExplore.
  repeat first [ frozen_step HP | apply deployBeacon_frozen, HP ].
Qed.

Lemma run_frozen (n now : Z) :
  parentKeeps (stuckFrozen n) -> keeps (stuckFrozen n) (run now).
Proof.
  intros HP. unfold run, updateHistory, manageTask, countNeighbors, artifactCheckReport.
  repeat first [ frozen_step HP
               | apply statusChecks_frozen, HP
               | apply beaconCheck_frozen, HP
               | apply deployBeacon_frozen, HP
               | apply selectGoal_frozen, HP ].
Qed.

(** The cycle up to its status checks. *)
Lemma run_atStatusChecks (now : Z) (w : World) :
  raises (trace w) (comm_pub (Base.incomm (base (self w)))) = None ->
  run now w
  = (statusChecks ;;
     checkBeacon <- manageTask ;;
     when checkBeacon beaconCheck ;;
     countNeighbors now ;;
     super artifactCheckAgent ;;
     artifactCheckReport ;;
     selectGoal now) (atStatusChecks w).
Proof.
  intros Hq. unfold run, atStatusChecks. unfold bind at 1. unfold get at 1.
  unfold bind at 1. unfold call at 1. rewrite Hq.
  unfold bind at 1. rewrite updateHistory_eq. reflexivity.
Qed.

(** C2, where the code departs from it. The stuck test of [run] never
    answers that the robot is stuck, so no cycle raises the stuck counter:
    after a cycle the counter is what it was or zero (the inherited methods
    leaving it alone). On a cycle on which the stuck detection runs with the
    oldest and the newest pose of the window less than 0.5 apart, whatever
    the headings, the cycle ends at the test with a NameError (line 364 uses
    the name [math], which the module never imports), the counter and the
    pending candidates as they were. *)
Theorem stuck_never_counts (now : Z) (w : World) :
  (forall r, isStuck r <> Ok true)
  /\ (parentLeavesStuck ->
      stuck (self (snd (run now w))) = stuck (self w)
      \/ stuck (self (snd (run now w))) = 0)
  /\ (raises (trace w) (comm_pub (Base.incomm (base (self w)))) = None ->
      detectionRuns (self (atStatusChecks w)) ->
      stationary (self (atStatusChecks w)) ->
      run now w = (Raise "NameError", atStatusChecks w)
      /\ stuck (self (atStatusChecks w)) = stuck (self w)
      /\ blgoals (self (atStatusChecks w)) = blgoals (self w)).
Proof.
  split; [exact isStuck_never|]. split.
  - intros Hleaves. apply (run_frozen (stuck (self w)) now).
    + intros c r [H | H]; [left | right]; rewrite Hleaves; exact H.
    + left. reflexivity.
  - intros Hq Hruns Hstat. split.
    + rewrite (run_atStatusChecks now w Hq). unfold bind at 1.
      rewrite (statusChecks_runs _ Hruns). unfold bind at 1.
      rewrite (stuckCount_raises _ _ (isStuck_stationary _ Hstat)). reflexivity.
    + unfold atStatusChecks. rewrite updateHistory_eq. cbn [snd self].
      unfold trimHistory. destruct (_ <? _); cbn;
        unfold latchMission; destruct (initialPose _); try destruct (negb _ && _);
        split; reflexivity.
Qed.

(** ** The goal blacklist *)

Lemma stuckReport_interval (w : World) :
  stopCheck (self w) <= stuck (self w) ->
  stopCheck (self w) <> 0 ->
  stuckReport w
  = (when (stuck (self w) mod stopCheck (self w) =? 0) commitBlacklist ;; reportStuck) w.
Proof.
  intros Hge Hnz. unfold stuckReport. unfold bind at 1. unfold get at 1.
  apply Z.leb_le in Hge. rewrite Hge. cbn [when].
  unfold bind at 1, lift, pymod. apply Z.eqb_neq in Hnz. rewrite Hnz. reflexivity.
Qed.

Lemma commitBlacklist_filtered (w : World) (avgGoal : Point.t) :
  averagePosition (blgoals (self w)) = Ok avgGoal ->
  commitBlacklist w
  = when (hislen (self w) / 2 <? len (survivors (self w) avgGoal))
      (newAvg <- lift (averagePosition (survivors (self w) avgGoal)) ;;
       when (negb (isOrigin newAvg))
         (super (addBlacklist newAvg) ;; modify (fun r => r <| blgoals := [] |>))) w.
Proof.
  intros Havg. unfold commitBlacklist. unfold bind at 1. unfold get at 1.
  unfold bind at 1, lift at 1. rewrite Havg. reflexivity.
Qed.

Lemma commitBlacklist_cases (w : World) (avgGoal : Point.t) :
  averagePosition (blgoals (self w)) = Ok avgGoal ->
  let newgoals := survivors (self w) avgGoal in
  (len newgoals <= hislen (self w) / 2 -> commitBlacklist w = (Ok tt, w))
  /\ (forall newAvg,
        hislen (self w) / 2 < len newgoals ->
        averagePosition newgoals = Ok newAvg ->
        commitBlacklist w
        = if isOrigin newAvg then (Ok tt, w)
          else (super (addBlacklist newAvg) ;; modify (fun r => r <| blgoals := [] |>)) w).
Proof.
  intros Havg newgoals. subst newgoals.
  rewrite (commitBlacklist_filtered w avgGoal Havg).
  split.
  - intros Hfew. apply Z.ltb_ge in Hfew. rewrite Hfew. reflexivity.
  - intros newAvg Hmany Hnew. apply Z.ltb_lt in Hmany. rewrite Hmany.
    cbn [when]. unfold bind at 1, lift. rewrite Hnew.
    destruct (isOrigin newAvg); reflexivity.
Qed.


End Stuck.

(** ** Report precedence *)

Section Report.
Context {helpers : Helpers} {env : Env}.





End Report.

(** ** Runs of the model *)

(** A deployment as the module has it: the robot is stopped and its status
    set to Deploy, but the drop itself ends at the name [Empty], which the
    module never imports; the error is logged and the beacon stays on board.
    A trigger that would raise is never reached. *)
Example deploy_aborts :
  let w := snd (deployBeacon (helpers := Euclid.helpers) (env := quiet)
                  true "at junction" (start loaded)) in
  numBeacons (self w) = 3
  /\ option_map Beacon.active (lookup "B1" (beacons (self w))) = Some false
  /\ Agent.status (agent (self w)) = "Deploy"
  /\ trace w = [parent stop; task_pub "Deploy";
                loginfo "X1 deploying beacon B1 for at junction";
                logerr "Error deploying beacon NameError"]
  /\ deployBeacon (helpers := Euclid.helpers) (env := jammed) true "at junction" (start loaded)
     = deployBeacon (helpers := Euclid.helpers) (env := quiet) true "at junction" (start loaded).
Proof. vm_compute. repeat split. Qed.


(** C2 on [idle], three cycles stuck: its window has not moved and not
    turned, so both bounds of the stuck test hold, and the cycle ends with a
    NameError, the counter still 3 and the candidates as they were. *)
Lemma stuck_never_counts_witness :
  let w := start idle in
  let w1 := atStatusChecks (helpers := Euclid.helpers) w in
  (index (history (self w1)) 0 = Ok (at_xy 20 0)
   /\ index (history (self w1)) (-1) = Ok (at_xy 20 0)
   /\ PrimFloat.ltb (Euclid.getDist (Pose.position (at_xy 20 0)) (Pose.position (at_xy 20 0)))
                    0.5 = true
   /\ PrimFloat.ltb
        (PrimFloat.abs
           (Euclid.angleDiff (Euclid.degrees (Euclid.getYaw (Pose.orientation (at_xy 20 0))))
                             (Euclid.degrees (Euclid.getYaw (Pose.orientation (at_xy 20 0))))))
        60 = true)
  /\ stuck idle = 3
  /\ run (helpers := Euclid.helpers) (env := quiet) 0 w = (Raise "NameError", w1)
  /\ stuck (self w1) = 3
  /\ blgoals (self w1) = [far; far; far].
Proof.
  cbv zeta. split; [repeat split; vm_compute; reflexivity|]. split; [reflexivity|].
  apply (proj2 (proj2 (stuck_never_counts (helpers := Euclid.helpers) (env := quiet) 0
                         (start idle)))).
  - reflexivity.
  - repeat split; try (vm_compute; reflexivity). vm_compute. discriminate.
  - exists (at_xy 20 0), (at_xy 20 0). repeat split; vm_compute; reflexivity.
Defined.



(** C5 on [atCorner], where the anchor-distance, the junction and the turn
    conditions all hold: the reason is "at junction", and it is the reason
    the deployment sequence logs. *)
Lemma junction_precedes_witness :
  let r := atCorner in
  let pose := Agent.odometry (agent r) in
  let anchorDist := Euclid.getDist (Pose.position pose) (anchorPos r) in
  (gtb anchorDist (maxAnchorDist r) && negb (delayDrop r) = true
   /\ turnCheck (helpers := Euclid.helpers) r = Ok true)
  /\ dropRules (helpers := Euclid.helpers) r anchorDist = Ok (true, "at junction", 10%float)
  /\ dropDecision (helpers := Euclid.helpers) r pose anchorDist = Ok (true, "at junction")
  /\ In (loginfo "X1 deploying beacon B1 for at junction")
        (trace (snd (beaconCheck (helpers := Euclid.helpers) (env := quiet) (start r)))).
Proof.
  cbv zeta.
  pose proof (junction_precedes (helpers := Euclid.helpers) (env := quiet) (start atCorner)
                ltac:(reflexivity) eq_refl eq_refl eq_refl) as (Hrules & _ & Hdecision & Hcheck).
  split; [split; vm_compute; reflexivity|].
  split; [exact Hrules|].
  split; [exact Hdecision|].
  rewrite Hcheck. vm_compute. right. right. left. reflexivity.
Defined.

(** C6 on two episodes three units apart: the first attempts a reverse drop,
    the second skips it and disables the reverse drop. *)
Lemma reverseDrop_dedup_witness :
  attemptsReverseDrop (helpers := Euclid.helpers) (env := quiet) (start lostFirst)
  /\ skipsReverseDrop (helpers := Euclid.helpers) (env := quiet) (start lostAgain)
  /\ ~ (attemptsReverseDrop (helpers := Euclid.helpers) (env := quiet) (start lostFirst)
        /\ attemptsReverseDrop (helpers := Euclid.helpers) (env := quiet) (start lostAgain)).
Proof.
  pose proof (reverseDrop_dedup (helpers := Euclid.helpers) (env := quiet))
    as (Hskip & Hattempt & _ & _ & Honce).
  assert (E1 : commLossEpisode (start lostFirst)) by (repeat split; reflexivity).
  assert (E2 : commLossEpisode (start lostAgain)) by (repeat split; reflexivity).
  split; [apply (Hattempt _ E1); vm_compute; reflexivity|].
  split; [apply (Hskip _ E2); vm_compute; reflexivity|].
  apply (Honce _ _ E1 E2).
  - vm_compute. intros a [<- | []]. now left.
  - vm_compute. reflexivity.
Defined.

(** ** Further properties of the code *)

Section History.
Context {helpers : Helpers} {env : Env}.

Lemma latchMission_frame (r : Robot) :
  history (latchMission r) = history r
  /\ agent (latchMission r) = agent r
  /\ hislen (latchMission r) = hislen r.
Proof.
  unfold latchMission. destruct (initialPose r); [|repeat split].
  destruct (negb _ && _); repeat split.
Qed.

Lemma trim_append (r : Robot) :
  history (trimHistory (appendPose r))
  = (let h := history r ++ [Agent.odometry (agent r)] in
     if hislen r <? len h then slice_from (- hislen r) h else h).
Proof.
  cbv zeta. unfold trimHistory.
  destruct (hislen r <? len (history r ++ [Agent.odometry (agent r)])) eqn:E.
  - replace (hislen (appendPose r) <? len (history (appendPose r))) with true
      by (symmetry; exact E).
    reflexivity.
  - replace (hislen (appendPose r) <? len (history (appendPose r))) with false
      by (symmetry; exact E).
    reflexivity.
Qed.

Lemma window_slides (r : Robot) :
  0 < hislen r ->
  let window := history (trimHistory (appendPose (latchMission r))) in
  window = skipn (Z.to_nat (len (history r) + 1 - hislen r)) (history r)
           ++ [Agent.odometry (agent r)]
  /\ len window = Z.min (len (history r) + 1) (hislen r).
Proof.
  intros Hpos. cbv zeta.
  destruct (latchMission_frame r) as (Hh & Ha & Hl).
  rewrite trim_append. cbv zeta. rewrite Hh, Ha, Hl, len_app. change (len [_]) with 1.
  destruct (Z.ltb_spec (hislen r) (len (history r) + 1)) as [Hfull|Hroom].
  - unfold slice_from.
    destruct (Z.ltb_spec (- hislen r) 0); [|lia].
    rewrite len_app. change (len [_]) with 1.
    replace (len (history r) + 1 + - hislen r)
      with (len (history r) + 1 - hislen r) by lia.
    assert (Hk : (Z.to_nat (len (history r) + 1 - hislen r)
                  <= List.length (history r))%nat) by (unfold len in *; lia).
    rewrite skipn_app.
    replace (_ - List.length (history r))%nat with 0%nat by lia.
    cbn [skipn]. split; [reflexivity|].
    rewrite len_app. change (len [_]) with 1. unfold len in *. rewrite length_skipn. lia.
  - replace (Z.to_nat _) with 0%nat by lia. cbn [skipn]. split; [reflexivity|].
    rewrite len_app. change (len [_]) with 1. lia.
Qed.

(** The window ends with the pose just recorded, for any window length that
    is not negative. *)
Lemma window_ends (r : Robot) :
  0 <= hislen r ->
  exists older,
    history (trimHistory (appendPose (latchMission r))) = older ++ [Agent.odometry (agent r)].
Proof.
  intros Hpos. destruct (Z.eq_dec (hislen r) 0) as [Hz|Hnz].
  - rewrite trim_append. cbv zeta.
    destruct (latchMission_frame r) as (-> & -> & ->).
    rewrite Hz. unfold slice_from. cbn [Z.opp Z.ltb Z.compare Z.to_nat skipn].
    destruct (0 <? _); eauto.
  - destruct (window_slides r ltac:(lia)) as [-> _]. eauto.
Qed.

(** X1 (updateHistory). With a positive window length, [updateHistory]
    returns normally and writes nothing to the trace; the history it leaves
    is the old one without its oldest poses, as many as exceed the window,
    followed by the current pose, and its length is the smaller of the old
    length plus one and the window length. *)
Theorem updateHistory_window (w : World) :
  0 < hislen (self w) ->
  let w' := snd (updateHistory w) in
  let pose := Agent.odometry (agent (self w)) in
  let h := history (self w) in
  fst (updateHistory w) = Ok tt
  /\ trace w' = trace w
  /\ history (self w') = skipn (Z.to_nat (len h + 1 - hislen (self w))) h ++ [pose]
  /\ len (history (self w')) = Z.min (len h + 1) (hislen (self w)).
Proof.
  intros Hpos. cbv zeta. rewrite updateHistory_eq. cbn [fst snd self trace].
  split; [reflexivity|]. split; [reflexivity|].
  apply (window_slides (self w) Hpos).
Qed.

(** X2 (updateHistory). [updateHistory] latches the start of the mission:
    [startedMission] is true afterwards exactly when it was true before or
    the robot is farther than 5 from the recorded initial pose, so it is
    never lowered; and the initial pose, once recorded, is kept (the first
    call records the current pose). *)
Theorem updateHistory_latch (w : World) :
  let w' := snd (updateHistory w) in
  startedMission (self w') = startedMission (self w) || leftStart (self w)
  /\ initialPose (self w')
     = Some (match initialPose (self w) with
             | Some initial => initial
             | None => Agent.odometry (agent (self w))
             end).
Proof.
  cbv zeta. rewrite updateHistory_eq. cbn [fst snd self].
  assert (H : forall r, startedMission (trimHistory (appendPose r)) = startedMission r
                        /\ initialPose (trimHistory (appendPose r)) = initialPose r).
  { intros r. unfold trimHistory. destruct (_ <? _); split; reflexivity. }
  destruct (H (latchMission (self w))) as [-> ->].
  unfold latchMission, leftStart.
  destruct (initialPose (self w)) as [initial|] eqn:Hi.
  - destruct (startedMission (self w)) eqn:Hs; cbn [negb andb orb].
    + split; assumption.
    + destruct (gtb _ _); split; first [reflexivity | assumption].
  - rewrite orb_false_r. split; reflexivity.
Qed.
End History.

(** X1 on [moving], whose window of ten poses is full. *)
Lemma updateHistory_window_witness :
  let w := start moving in
  let w' := snd (updateHistory (helpers := Euclid.helpers) w) in
  0 < hislen (self w)
  /\ fst (updateHistory (helpers := Euclid.helpers) w) = Ok tt
  /\ trace w' = trace w
  /\ history (self w') = skipn 1 (track 0 1) ++ [at_xy 10 0]
  /\ len (history (self w')) = 10.
Proof.
  split; [reflexivity|].
  apply (updateHistory_window (helpers := Euclid.helpers) (start moving)). reflexivity.
Defined.

Section Status.

Lemma getStatus_eq (w : World) :
  getStatus w
  = (Ok (match truthy (newStatus (statusTick (self w))) with
         | Some extra => Agent.status (agent (self w)) ^^ "+++" ^^ extra
         | None => Agent.status (agent (self w))
         end),
     mkWorld (statusTick (self w)) (trace w)).
Proof.
  unfold getStatus, bind, get, modify, ret, statusTick.
  destruct (5 <? statusCount (self w)); cbn [fst snd]; rewrite !self_upd_self; cbv beta.
  - reflexivity.
  - change (newStatus ((self w) <| statusCount ::= (fun n => n + 1) |>)) with (newStatus (self w)).
    destruct (truthy (newStatus (self w))); reflexivity.
Qed.

Lemma times_getStatus (n : nat) (w : World) :
  times n getStatus w = (Ok tt, mkWorld (repeated n statusTick (self w)) (trace w))
  \/ n = 0%nat.
Proof.
  destruct n as [|n]; [now right|left]. revert w.
  induction n as [|n IH]; intros w.
  - cbn [times repeated]. unfold bind. rewrite getStatus_eq. reflexivity.
  - change (times (S (S n)) getStatus) with (getStatus ;; times (S n) getStatus).
    unfold bind at 1. rewrite getStatus_eq, IH. reflexivity.
Qed.

Lemma statusTick_cleared (r : Robot) :
  newStatus r = None -> newStatus (statusTick r) = None.
Proof. intros H. unfold statusTick. destruct (5 <? statusCount r); [reflexivity | exact H]. Qed.

Lemma repeated_cleared (n : nat) (r : Robot) :
  newStatus r = None -> newStatus (repeated n statusTick r) = None.
Proof.
  revert r. induction n as [|n IH]; intros r H; [exact H|].
  cbn [repeated]. apply IH, statusTick_cleared, H.
Qed.

Lemma repeated_add {A} (n m : nat) (f : A -> A) (a : A) :
  repeated (n + m) f a = repeated m f (repeated n f a).
Proof. revert a. induction n as [|n IH]; intros a; [reflexivity|]. cbn. apply IH. Qed.

Lemma statusTick_counts (k : nat) (r : Robot) :
  statusCount r = 6 - Z.of_nat k ->
  newStatus (repeated (S k) statusTick r) = None.
Proof.
  revert r. induction k as [|k IH]; intros r Hc.
  - cbn [repeated]. unfold statusTick. rewrite Hc. reflexivity.
  - change (repeated (S (S k)) statusTick r) with (repeated (S k) statusTick (statusTick r)).
    apply IH. unfold statusTick.
    destruct (Z.ltb_spec 5 (statusCount r)); [lia|].
    change (statusCount (r <| statusCount ::= (fun n => n + 1) |>)) with (statusCount r + 1).
    lia.
Qed.

(** X3 (getStatus). Whatever additional status is on display, seven
    calls of [getStatus] in a row return normally, write nothing to the
    trace, and leave no additional status, provided the display counter is
    not negative. *)
Theorem getStatus_clears (w : World) :
  0 <= statusCount (self w) ->
  let w' := snd (times 7 getStatus w) in
  fst (times 7 getStatus w) = Ok tt
  /\ newStatus (self w') = None
  /\ trace w' = trace w.
Proof.
  intros Hc. cbv zeta.
  destruct (times_getStatus 7 w) as [-> | H]; [|discriminate].
  cbn [fst snd self trace]. repeat split.
  destruct (Z.ltb_spec 5 (statusCount (self w))) as [Hpast|Hcounting].
  - change (repeated 7 statusTick (self w)) with (repeated 6 statusTick (statusTick (self w))).
    apply repeated_cleared. unfold statusTick.
    apply Z.ltb_lt in Hpast. rewrite Hpast. reflexivity.
  - set (k := Z.to_nat (6 - statusCount (self w))).
    assert (Hk : (7 = S k + (6 - k))%nat) by lia.
    rewrite Hk, repeated_add. apply repeated_cleared, statusTick_counts. lia.
Qed.

End Status.

(** X3 on a robot that displays the additional status 'Stuck'. *)
Lemma getStatus_clears_witness :
  let w := start flagged in
  0 <= statusCount (self w)
  /\ fst (getStatus w) = Ok "+++Stuck"
  /\ newStatus (self (snd (times 7 getStatus w))) = None.
Proof.
  split; [discriminate|]. split; [reflexivity|].
  apply (getStatus_clears (start flagged)). discriminate.
Defined.

Section DistCheckOrder.
Context {helpers : Helpers}.

Lemma filter_permutation {A} (f : A -> bool) (l l' : list A) :
  Permutation l l' -> Permutation (filter f l) (filter f l').
Proof.
  induction 1 as [|a l l' _ IH|a b l|l l' l'' _ IH1 _ IH2]; cbn [filter].
  - constructor.
  - destruct (f a); [constructor|]; exact IH.
  - destruct (f a), (f b); try apply Permutation_refl. apply perm_swap.
  - eapply Permutation_trans; eassumption.
Qed.

Lemma len_permutation {A} (l l' : list A) : Permutation l l' -> len l = len l'.
Proof. intros H. unfold len. now rewrite (Permutation_length H). Qed.

Lemma existsb_permutation {A} (f : A -> bool) (l l' : list A) :
  Permutation l l' -> existsb f l = existsb f l'.
Proof.
  intros H.
  destruct (existsb f l) eqn:E, (existsb f l') eqn:E'; try reflexivity.
  - apply existsb_exists in E as (a & Hin & Ha).
    assert (existsb f l' = true) by (apply existsb_exists; exists a; split;
      [eapply Permutation_in; eassumption | exact Ha]). congruence.
  - apply existsb_exists in E' as (a & Hin & Ha).
    assert (existsb f l = true) by (apply existsb_exists; exists a; split;
      [eapply Permutation_in; [apply Permutation_sym|]; eassumption | exact Ha]). congruence.
Qed.

(** X4 (beaconDistCheck). The result of [beaconDistCheck] does not depend
    on the order in which the beacon registry lists its beacons. *)
Theorem beaconDistCheck_order (r r' : Robot) (pose : Pose.t) (checkDist : float)
    (dropBeacon : bool) :
  Permutation (beacons r) (beacons r') ->
  beaconDistCheck r pose checkDist dropBeacon = beaconDistCheck r' pose checkDist dropBeacon.
Proof.
  intros H. rewrite !beaconDistCheck_eq. cbv zeta. unfold activeBeacons.
  assert (Hv : Permutation (values (beacons r)) (values (beacons r')))
    by (apply Permutation_map, H).
  rewrite (len_permutation _ _ (filter_permutation Beacon.active _ _ Hv)).
  rewrite (len_permutation _ _ (filter_permutation (activeBeyond pose checkDist) _ _ Hv)).
  rewrite (existsb_permutation (activeBeyond pose checkDist) _ _ Hv).
  reflexivity.
Qed.

(** The counts that [beaconDistCheck] returns. *)
Lemma beaconDistCheck_counts (r : Robot) (pose : Pose.t) (checkDist : float) (dropBeacon : bool) :
  let '(flag, numBeacons, numDistBeacons) := beaconDistCheck r pose checkDist dropBeacon in
  numBeacons = len (activeBeacons r)
  /\ 0 <= numDistBeacons <= numBeacons
  /\ (flag = true -> dropBeacon = true \/ 0 < numDistBeacons).
Proof.
  rewrite beaconDistCheck_eq. cbv zeta. unfold activeBeacons.
  split; [reflexivity|]. split.
  - rewrite (active_split pose checkDist).
    pose proof (len_nonneg (filter (activeBeyond pose checkDist) (values (beacons r)))).
    pose proof (len_nonneg (filter (activeWithin pose checkDist) (values (beacons r)))). lia.
  - destruct (0 <? _); [discriminate|].
    intros H. apply orb_true_iff in H as [H | H]; [now left | right].
    apply existsb_exists in H as (b & Hin & Hb).
    assert (Hf : In b (filter (activeBeyond pose checkDist) (values (beacons r))))
      by (apply filter_In; auto).
    destruct (filter (activeBeyond pose checkDist) (values (beacons r))); [destruct Hf|].
    rewrite len_cons. pose proof (len_nonneg l). lia.
Qed.

End DistCheckOrder.

(** X4 on [nearAndFar] and the same registry reversed. *)
Lemma beaconDistCheck_order_witness :
  beaconDistCheck (helpers := Euclid.helpers) nearAndFar (at_xy 0 0) 10 true
  = beaconDistCheck (helpers := Euclid.helpers) farAndNear (at_xy 0 0) 10 true.
Proof.
  apply (beaconDistCheck_order (helpers := Euclid.helpers) nearAndFar farAndNear).
  apply Permutation_rev.
Defined.

Section Reasons.
Context {helpers : Helpers}.

Lemma dropRules_reason (r : Robot) (anchorDist : float) (flag : bool) (reason : string)
    (checkDist : float) :
  dropRules r anchorDist = Ok (flag, reason, checkDist) ->
  (flag = true /\ (reason = "anchor distance" \/ reason = "at junction" \/ reason = "at turn"))
  \/ (flag = false /\ reason = "").
Proof.
  unfold dropRules.
  destruct (gtb anchorDist (maxAnchorDist r) && negb (delayDrop r));
    destruct (Agent.atnode (agent r));
    try (intros [= <- <- <-]; auto 6; fail);
    (destruct (turnDetect r && (len (history r) =? hislen r));
     [destruct (turnCheck r) as [[|]|e]; cbn [and_then] |];
     try discriminate; intros [= <- <- <-]; auto 6).
Qed.

(** X5 (beaconCheck). Whenever the drop decision of [beaconCheck] is to
    drop, the reason it hands to the deployment sequence is one of
    'anchor distance', 'at junction', 'at turn' and 'beacon distance': never
    the empty reason it starts from. *)
Theorem dropDecision_reason (r : Robot) (pose : Pose.t) (anchorDist : float) (reason : string) :
  dropDecision r pose anchorDist = Ok (true, reason) -> knownReason reason.
Proof.
  unfold dropDecision.
  destruct (dropRules r anchorDist) as [[[flag0 reason0] checkDist]|e] eqn:Hrules;
    [|discriminate].
  cbn [and_then].
  pose proof (beaconDistCheck_counts r pose checkDist flag0) as Hcounts.
  destruct (beaconDistCheck r pose checkDist flag0) as [[flag n] k].
  destruct Hcounts as (_ & _ & Hflag).
  rewrite deadband_false. intros [= -> <-].
  apply dropRules_reason in Hrules. unfold knownReason, reclassify.
  destruct Hrules as [[-> [-> | [-> | ->]]] | [-> ->]].
  - destruct (0 <? k); cbn; auto.
  - destruct (0 <? k); cbn; auto.
  - destruct (0 <? k); cbn; auto.
  - destruct (Hflag eq_refl) as [? | Hk]; [discriminate|].
    apply Z.ltb_lt in Hk. rewrite Hk. cbn. auto.
Qed.

End Reasons.

(** X5 on [atCorner], where the decision is to drop at the junction. *)
Lemma dropDecision_reason_witness :
  let pose := Agent.odometry (agent atCorner) in
  let anchorDist := Euclid.getDist (Pose.position pose) (anchorPos atCorner) in
  dropDecision (helpers := Euclid.helpers) atCorner pose anchorDist = Ok (true, "at junction")
  /\ knownReason "at junction".
Proof.
  split; [vm_compute; reflexivity|].
  apply (dropDecision_reason (helpers := Euclid.helpers) atCorner
           (Agent.odometry (agent atCorner))
           (Euclid.getDist (Pose.position (Agent.odometry (agent atCorner))) (anchorPos atCorner))).
  vm_compute. reflexivity.
Defined.

Section QuietCheck.
Context {helpers : Helpers} {env : Env}.

Lemma sent_app (tr tr' : list Event) : sent (tr ++ tr') = sent tr ++ sent tr'.
Proof. unfold sent. apply filter_app. Qed.

Lemma sent_log (tr : list Event) (line : string) : sent (tr ++ [loginfo line]) = sent tr.
Proof. rewrite sent_app. cbn. apply app_nil_r. Qed.

Lemma reverseDropCheck_quiet (pose : Pose.t) (w : World) :
  let w' := snd (reverseDropCheck pose w) in
  fst (reverseDropCheck pose w) = Ok tt
  /\ sent (trace w') = sent (trace w)
  /\ registry w' = registry w.
Proof.
  cbv zeta. unfold reverseDropCheck, bind, modify, get, when, log, ret.
  cbn [fst snd]. rewrite !self_upd_self. cbv beta.
  destruct (5 <? _); cbn [fst snd]; [|repeat split].
  destruct (existsb _ _); cbn [fst snd]; rewrite ?self_upd_self, ?self_upd_trace; cbv beta.
  - match goal with |- context [if ?c then _ else _] => destruct c end;
      cbn [fst snd]; repeat split; rewrite ?trace_upd_self, ?trace_upd_trace, ?sent_log;
      reflexivity.
  - match goal with |- context [if ?c then _ else _] => destruct c end;
      cbn [fst snd]; repeat split.
Qed.

Lemma beaconCheck_empty (w : World) :
  numBeacons (self w) <= 0 -> beaconCheck w = (Ok tt, w).
Proof.
  intros Hn. unfold beaconCheck, bind, get.
  destruct (Z.ltb_spec 0 (numBeacons (self w))); [lia | reflexivity].
Qed.

Lemma beaconCheck_tooClose (w : World) :
  0 < numBeacons (self w) ->
  Base.incomm (base (self w)) = true ->
  PrimFloat.ltb (getDist (position (self w)) (anchorPos (self w)))
                (minAnchorDist (self w)) = true ->
  beaconCheck w = (Ok tt, mkWorld (restoreComm (self w)) (trace w)).
Proof.
  intros Hn Hc H. unfold beaconCheck. unfold bind at 1, get.
  apply Z.ltb_lt in Hn. rewrite Hn. cbn [when]. rewrite Hc.
  unfold bind at 1, modify at 1. unfold bind at 1, get. rewrite !self_upd_self.
  cbv beta.
  match goal with |- context [if ?c then _ else _] =>
    replace c with true by (symmetry; exact H) end.
  reflexivity.
Qed.

Lemma beaconCheck_lost (w : World) :
  0 < numBeacons (self w) ->
  Base.incomm (base (self w)) = false ->
  beaconCheck w
  = if reverseDrop (self w)
    then reverseDropCheck (Agent.odometry (agent (self w))) w
    else (Ok tt, w).
Proof.
  intros Hn Hc. unfold beaconCheck. unfold bind at 1, get.
  apply Z.ltb_lt in Hn. rewrite Hn. cbn [when]. rewrite Hc.
  destruct (reverseDrop (self w)); reflexivity.
Qed.

(** X6 (beaconCheck). With no beacon on board, or out of comm, or closer
    to the anchor than the minimum distance, [beaconCheck] returns normally,
    sends nothing to a collaborator (it writes log lines at most) and leaves
    the owned-beacon count and the registry as they are. *)
Theorem beaconCheck_quiet (w : World) :
  let r := self w in
  numBeacons r <= 0
  \/ Base.incomm (base r) = false
  \/ PrimFloat.ltb (getDist (position r) (anchorPos r)) (minAnchorDist r) = true ->
  let w' := snd (beaconCheck w) in
  fst (beaconCheck w) = Ok tt
  /\ sent (trace w') = sent (trace w)
  /\ registry w' = registry w.
Proof.
  intros r Hcase. subst r. cbv zeta.
  destruct (Z.ltb_spec 0 (numBeacons (self w))) as [Hn|Hn];
    [|rewrite (beaconCheck_empty w Hn); repeat split].
  destruct (Base.incomm (base (self w))) eqn:Hc.
  - destruct Hcase as [H | [H | H]]; [lia | discriminate |].
    rewrite (beaconCheck_tooClose w Hn Hc H). repeat split.
  - rewrite (beaconCheck_lost w Hn Hc).
    destruct (reverseDrop (self w)); [apply reverseDropCheck_quiet | repeat split].
Qed.

Lemma beaconCheck_incomm (w : World) :
  let r := self w in
  let pose := Agent.odometry (agent r) in
  let anchorDist := getDist (Pose.position pose) (anchorPos r) in
  0 < numBeacons r ->
  Base.incomm (base r) = true ->
  PrimFloat.ltb anchorDist (minAnchorDist r) = false ->
  beaconCheck w
  = ('(dropBeacon, dropReason) <- lift (dropDecision r pose anchorDist) ;;
     when dropBeacon
       (if delayDrop r
        then modify (fun r => r <| delayDrop := false |>)
        else deployBeacon true dropReason)) (mkWorld (restoreComm r) (trace w)).
Proof.
  intros r pose anchorDist Hn Hc Hmin. subst r pose anchorDist.
  unfold beaconCheck. unfold bind at 1, get.
  apply Z.ltb_lt in Hn. rewrite Hn. cbn [when]. rewrite Hc.
  unfold bind at 1, modify at 1. unfold bind at 1, get. rewrite !self_upd_self.
  cbv beta.
  match goal with |- context [if ?c then _ else _] =>
    replace c with false by (symmetry; exact Hmin) end.
  reflexivity.
Qed.

(** X7 (beaconCheck). A delayed drop is spent by the first decision to
    drop: in comm, with beacons on board and past the minimum anchor
    distance, when the decision is to drop, [beaconCheck] with [delayDrop]
    set only clears [delayDrop] (after restoring the comm bookkeeping) and
    deploys nothing, and without it runs the deployment sequence in place
    with the reason of the decision. *)
Theorem delayDrop_one_shot (w : World) (reason : string) :
  let r := self w in
  let pose := Agent.odometry (agent r) in
  let anchorDist := getDist (Pose.position pose) (anchorPos r) in
  0 < numBeacons r ->
  Base.incomm (base r) = true ->
  PrimFloat.ltb anchorDist (minAnchorDist r) = false ->
  dropDecision r pose anchorDist = Ok (true, reason) ->
  beaconCheck w
  = if delayDrop r
    then (Ok tt, mkWorld ((restoreComm r) <| delayDrop := false |>) (trace w))
    else deployBeacon true reason (mkWorld (restoreComm r) (trace w)).
Proof.
  intros r pose anchorDist Hn Hc Hmin Hdrop.
  rewrite (beaconCheck_incomm w Hn Hc Hmin). fold r pose anchorDist.
  unfold bind, lift. rewrite Hdrop. cbn [when].
  destruct (delayDrop r); reflexivity.
Qed.

End QuietCheck.

(** X6 on [lostFirst], which is out of comm. *)
Lemma beaconCheck_quiet_witness :
  let w := start lostFirst in
  let w' := snd (beaconCheck (helpers := Euclid.helpers) (env := quiet) w) in
  Base.incomm (base (self w)) = false
  /\ fst (beaconCheck (helpers := Euclid.helpers) (env := quiet) w) = Ok tt
  /\ sent (trace w') = sent (trace w)
  /\ registry w' = registry w.
Proof.
  split; [reflexivity|].
  apply (beaconCheck_quiet (helpers := Euclid.helpers) (env := quiet) (start lostFirst)).
  right. left. reflexivity.
Defined.

(** X7 on [atCorner] with the drop delayed. *)
Lemma delayDrop_one_shot_witness :
  beaconCheck (helpers := Euclid.helpers) (env := quiet) (start delayed)
  = (Ok tt, start (atCorner <| beaconCommLost := 0 |> <| reverseDrop := false |>)).
Proof.
  apply (delayDrop_one_shot (helpers := Euclid.helpers) (env := quiet) (start delayed) "at junction").
  - reflexivity.
  - reflexivity.
  - vm_compute. reflexivity.
  - vm_compute. reflexivity.
Defined.

Section DeployAborts.
Context {helpers : Helpers} {env : Env}.

Lemma index_last {A} (a : A) (l : list A) : exists x, index (a :: l) (-1) = Ok x.
Proof.
  unfold index. rewrite len_cons.
  destruct (Z.ltb_spec (-1) 0); [|lia].
  pose proof (len_nonneg l).
  destruct (Z.ltb_spec (len l + 1 + -1) 0); [lia|].
  destruct (nth_error (a :: l) (Z.to_nat (len l + 1 + -1))) as [x|] eqn:E; [now exists x|].
  apply nth_error_None in E. cbn [List.length] in E. unfold len in *. lia.
Qed.

Lemma world_eq (w1 w2 : World) : self w1 = self w2 -> trace w1 = trace w2 -> w1 = w2.
Proof. destruct w1, w2. cbn. intros -> ->. reflexivity. Qed.

(** With the simulated comms the sequence raises before its log line. *)
Lemma deployBeacon_sim (inplace : bool) (dropReason deploy : string) (w : World) :
  truthy (first_available (values (beacons (self w)))) = Some deploy ->
  useSimComms (parentEffect stop (self w)) = true ->
  exists e, fst (deployBeacon inplace dropReason w) = Raise e.
Proof.
  intros Hsel Hsim.
  unfold deployBeacon, bind at 1, get. rewrite Hsel.
  unfold super, bind, call, modify, lift, Globals.math.
  cbn [self trace fst snd].
  split_raises; [eauto|].
  split_raises; [eauto|].
  autorewrite with world. rewrite Hsim.
  split_raises; eauto.
Qed.

(** Without them it logs the NameError of the drop and returns. *)
Lemma deployBeacon_live (inplace : bool) (dropReason deploy : string) (w : World) :
  truthy (first_available (values (beacons (self w)))) = Some deploy ->
  useSimComms (parentEffect stop (self w)) = false ->
  neverRaises ->
  deployBeacon inplace dropReason w
  = (Ok tt,
     mkWorld ((parentEffect stop (self w)) <| agent -> Agent.status := "Deploy" |>)
             (trace w ++ [parent stop; task_pub "Deploy";
                          loginfo (id (parentEffect stop (self w)) ^^ " deploying beacon "
                                   ^^ deploy ^^ " for " ^^ dropReason);
                          logerr "Error deploying beacon NameError"])).
Proof.
  intros Hsel Hsim Hq.
  unfold deployBeacon, bind at 1, get. rewrite Hsel.
  unfold super, try_except, bind, call, modify, log, lift, ret, Globals.Empty.
  cbn [self trace fst snd]. rewrite !Hq. cbn [self trace fst snd].
  autorewrite with world. rewrite Hsim. cbn [self trace fst snd].
  f_equal. apply world_eq.
  - rewrite !self_upd_trace, !self_upd_self, !self_upd_trace. reflexivity.
  - rewrite !trace_upd_trace, !trace_upd_self, !trace_upd_trace, <- !app_assoc. reflexivity.
Qed.

(** X8 (deployBeacon). As the module has it, the deployment sequence with an
    available beacon never deploys it: the owned-beacon count and the
    registry come out as they went in (the inherited [stop] leaving them
    alone). With the simulated comms the sequence raises, at the latest at
    the name [math] of line 156; without them, when no collaborator raises,
    it stops the robot, sets and publishes the status Deploy, logs the drop
    and then the NameError of [Empty] at line 166, and returns. *)
Theorem deployBeacon_aborts (inplace : bool) (dropReason deploy : string) (w : World) :
  truthy (first_available (values (beacons (self w)))) = Some deploy ->
  stopKeepsBeacons ->
  let result := deployBeacon inplace dropReason w in
  numBeacons (self (snd result)) = numBeacons (self w)
  /\ beacons (self (snd result)) = beacons (self w)
  /\ (useSimComms (self w) = true -> exists e, fst result = Raise e)
  /\ (useSimComms (self w) = false -> neverRaises ->
      fst result = Ok tt
      /\ Agent.status (agent (self (snd result))) = "Deploy"
      /\ trace (snd result)
         = trace w ++ [parent stop; task_pub "Deploy";
                       loginfo (id (parentEffect stop (self w)) ^^ " deploying beacon "
                                ^^ deploy ^^ " for " ^^ dropReason);
                       logerr "Error deploying beacon NameError"]).
Proof.
  intros Hsel Hstop result. subst result.
  pose proof (deployBeacon_available inplace dropReason deploy w Hsel Hstop) as Hreg.
  unfold registry in Hreg. injection Hreg as Hn Hb.
  destruct (Hstop (self w)) as (_ & _ & Hs).
  split; [exact Hn|]. split; [exact Hb|]. split.
  - intros Hsim. apply (deployBeacon_sim inplace dropReason deploy w Hsel). now rewrite Hs.
  - intros Hsim Hq.
    rewrite (deployBeacon_live inplace dropReason deploy w Hsel ltac:(now rewrite Hs) Hq).
    repeat split.
Qed.

End DeployAborts.

(** X8 on [loaded] with the quiet collaborators: no beacon is deployed. *)
Lemma deployBeacon_aborts_witness :
  let result := deployBeacon (helpers := Euclid.helpers) (env := quiet)
                  true "at junction" (start loaded) in
  numBeacons (self (snd result)) = 3
  /\ beacons (self (snd result)) = beacons loaded
  /\ fst result = Ok tt
  /\ trace (snd result) = [parent stop; task_pub "Deploy";
                           loginfo "X1 deploying beacon B1 for at junction";
                           logerr "Error deploying beacon NameError"].
Proof.
  cbv zeta.
  pose proof (deployBeacon_aborts (helpers := Euclid.helpers) (env := quiet)
                true "at junction" "B1" (start loaded) eq_refl
                ltac:(intros r; repeat split)) as H.
  cbv zeta in H. destruct H as (Hn & Hb & _ & Hlive).
  destruct (Hlive eq_refl ltac:(intros tr e; reflexivity)) as (Hok & _ & Htrace).
  split; [exact Hn|]. split; [exact Hb|]. split; [exact Hok | exact Htrace].
Defined.

Section Artifacts.
Context {helpers : Helpers} {env : Env}.

Lemma artifactCheckReport_nothing (w : World) :
  report (self w) = false -> ownUnreported (self w) = false ->
  artifactCheckReport w = (Ok tt, w).
Proof.
  intros Hr Ho. unfold artifactCheckReport, bind, get. rewrite Hr. cbn [negb when].
  change (existsb _ _) with (ownUnreported (self w)). rewrite Ho. cbn [when ret].
  unfold ret. rewrite Hr. reflexivity.
Qed.

Lemma all_reported (me : string) (d : list (string * Artifact.t)) :
  existsb (fun artifact => String.eqb (Artifact.agent_id artifact) me
                           && negb (Artifact.reported artifact))
    (values (map (fun '(k, artifact) => (k, artifact <| Artifact.reported := true |>)) d))
  = false.
Proof.
  induction d as [|[k a] d IH]; [reflexivity|].
  cbn [map values existsb] in *. unfold values in IH. rewrite IH.
  cbn. rewrite andb_false_r. reflexivity.
Qed.

(** X9 (run, artifactCheckReport). Once the base has acknowledged the
    latest artifact (or the robot works alone), the report test of [run]
    does not return early: it lowers [report], marks every artifact of the
    registry reported, keeps the keys of the registry, and sends nothing;
    and the next [artifactCheckReport] finds nothing to report. *)
Theorem report_acknowledged (w : World) :
  report (self w) = true ->
  acknowledged (self w) = true ->
  let w1 := snd (reportCheck w) in
  fst (reportCheck w) = Ok false
  /\ report (self w1) = false
  /\ (forall artifact, In artifact (values (artifacts (self w1))) ->
                       Artifact.reported artifact = true)
  /\ map fst (artifacts (self w1)) = map fst (artifacts (self w))
  /\ sent (trace w1) = sent (trace w)
  /\ artifactCheckReport w1 = (Ok tt, w1).
Proof.
  intros Hr Hack. cbv zeta.
  assert (E : reportCheck w
              = (Ok false,
                 mkWorld ((self w) <| report := false |>
                                   <| artifacts ::= map (fun '(k, artifact) =>
                                        (k, artifact <| Artifact.reported := true |>)) |>)
                         (trace w ++ [loginfo (id (self w) ^^ " resuming operation...")]))).
  { unfold reportCheck, bind, get. rewrite Hr. unfold acknowledged in Hack. rewrite Hack.
    reflexivity. }
  rewrite E. cbn [fst snd self trace].
  split; [reflexivity|]. split; [reflexivity|].
  split.
  { intros a Hin. unfold values in Hin. apply in_map_iff in Hin as ([k a'] & <- & Hin).
    apply in_map_iff in Hin as ([k0 a0] & [= <- <-] & _). reflexivity. }
  split.
  { change (artifacts _) with (map (fun '(k, artifact) =>
        (k, artifact <| Artifact.reported := true |>)) (artifacts (self w))) at 1.
    rewrite map_map. apply map_ext. intros [k a]. reflexivity. }
  split; [apply sent_log|].
  apply artifactCheckReport_nothing; [reflexivity|].
  apply all_reported.
Qed.

End Artifacts.

(** X9 on [heard], whose latest artifact the base has seen. *)
Lemma report_acknowledged_witness :
  let w := start heard in
  let w1 := snd (reportCheck (env := quiet) w) in
  report (self w) = true
  /\ acknowledged (self w) = true
  /\ fst (reportCheck (env := quiet) w) = Ok false
  /\ report (self w1) = false
  /\ artifactCheckReport w1 = (Ok tt, w1).
Proof.
  split; [reflexivity|]. split; [reflexivity|].
  pose proof (report_acknowledged (env := quiet) (start heard) eq_refl eq_refl) as H.
  cbv zeta in H. destruct H as (H1 & H2 & _ & _ & _ & H6).
  split; [exact H1|]. split; [exact H2 | exact H6].
Defined.

Section Aerial.

Lemma aerialMaps_eq (now : Z) (w : World) :
  aerialMaps now w
  = let r := self w in
    if isAerial r && negb (launch_status r) && negb (Reset.ignore (Agent.reset (agent r)))
    then (Ok tt, mkWorld (markReset now true r)
                         (trace w ++ [loginfo "ignore aerial maps until launched"]))
    else if isAerial r && launch_status r && Reset.ignore (Agent.reset (agent r))
    then (Ok tt, mkWorld (markReset now false r)
                         (trace w ++ [loginfo "aerial robot launched, stop ignoring maps"]))
    else (Ok tt, w).
Proof.
  cbv zeta. unfold aerialMaps, bind, get, log, modify, ret, markReset.
  destruct (isAerial (self w) && negb (launch_status (self w))
            && negb (Reset.ignore (Agent.reset (agent (self w))))); [reflexivity|].
  destruct (isAerial (self w) && launch_status (self w)
            && Reset.ignore (Agent.reset (agent (self w)))); reflexivity.
Qed.

Lemma markReset_flags (now : Z) (ignore : bool) (r : Robot) :
  isAerial (markReset now ignore r) = isAerial r
  /\ launch_status (markReset now ignore r) = launch_status r
  /\ Reset.ignore (Agent.reset (agent (markReset now ignore r))) = ignore.
Proof. repeat split. Qed.

(** X10 (run). The aerial-map gate of [run] always returns normally and
    settles in one step: run again on its result, at any time, it changes
    nothing. For an aerial robot the maps are ignored afterwards exactly
    when it has not launched; for any other robot it does nothing. *)
Theorem aerialMaps_once (now now' : Z) (w : World) :
  let w1 := snd (aerialMaps now w) in
  fst (aerialMaps now w) = Ok tt
  /\ aerialMaps now' w1 = (Ok tt, w1)
  /\ (isAerial (self w) = true ->
      Reset.ignore (Agent.reset (agent (self w1))) = negb (launch_status (self w)))
  /\ (isAerial (self w) = false -> aerialMaps now w = (Ok tt, w)).
Proof.
  cbv zeta. rewrite (aerialMaps_eq now w). cbv zeta.
  destruct (isAerial (self w)) eqn:Ha, (launch_status (self w)) eqn:Hl,
    (Reset.ignore (Agent.reset (agent (self w)))) eqn:Hi;
    cbn [andb negb fst snd];
    (split; [reflexivity|]);
    (split; [|split; intros H; first [discriminate H | assumption | reflexivity]]);
    rewrite (aerialMaps_eq now'); cbv zeta; cbn [self];
    try (destruct (markReset_flags now false (self w)) as (-> & -> & ->));
    try (destruct (markReset_flags now true (self w)) as (-> & -> & ->));
    rewrite ?Ha, ?Hl, ?Hi; reflexivity.
Qed.

End Aerial.

Section Arbiter.
Context {helpers : Helpers} {env : Env}.

Lemma modeArbiter_waits (w : World) (n : Z) :
  mode (self w) = "Deploy" ->
  Base.incomm (base (self w)) = true ->
  regainBase (self w) = Some n ->
  n <= 5 ->
  modeArbiter w
  = (Ok tt, mkWorld ((self w) <| regainBase := Some (n + 1) |>)
                    (trace w ++ [loginfo (id (self w) ^^ " reverse deploy mode")])).
Proof.
  intros Hm Hc Hr Hn. unfold modeArbiter. unfold bind at 1. unfold get at 1.
  rewrite Hm. cbn [String.eqb Ascii.eqb Bool.eqb andb].
  rewrite Hc. unfold bind at 1, log at 1. unfold bind at 1. rewrite Hr.
  unfold ret at 1. cbn [fst snd].
  destruct (Z.ltb_spec 5 n); [lia|]. reflexivity.
Qed.

(** X11 (run). In Deploy mode and in comm, the mode step of [run] only
    counts while the regain counter is at most 5: after [k] cycles that
    start from a counter [n] with [n + k <= 6], the counter is [n + k], the
    mode is still Deploy, the beacon bookkeeping is untouched and nothing
    was sent. *)
Theorem modeArbiter_hysteresis (k : nat) (w : World) (n : Z) :
  mode (self w) = "Deploy" ->
  Base.incomm (base (self w)) = true ->
  regainBase (self w) = Some n ->
  n + Z.of_nat k <= 6 ->
  let w' := snd (times k modeArbiter w) in
  fst (times k modeArbiter w) = Ok tt
  /\ regainBase (self w') = Some (n + Z.of_nat k)
  /\ mode (self w') = "Deploy"
  /\ registry w' = registry w
  /\ sent (trace w') = sent (trace w).
Proof.
  revert w n. induction k as [|k IH]; intros w n Hm Hc Hr Hn; cbv zeta.
  - cbn [times]. unfold ret. cbn [fst snd]. rewrite Z.add_0_r. auto.
  - cbn [times]. unfold bind. rewrite (modeArbiter_waits w n Hm Hc Hr ltac:(lia)).
    set (w1 := mkWorld _ _).
    destruct (IH w1 (n + 1) Hm Hc eq_refl ltac:(lia)) as (Hf & Hb & Hmode & Hreg & Hsent).
    split; [exact Hf|]. split; [rewrite Hb; f_equal; lia|]. split; [exact Hmode|].
    split; [exact Hreg|]. rewrite Hsent. apply sent_log.
Qed.

End Arbiter.

(** X11 on [regaining], for three cycles. *)
Lemma modeArbiter_hysteresis_witness :
  let w := start regaining in
  let w' := snd (times 3 (modeArbiter (helpers := Euclid.helpers) (env := quiet)) w) in
  regainBase (self w') = Some 3 /\ mode (self w') = "Deploy" /\ registry w' = registry w.
Proof.
  pose proof (modeArbiter_hysteresis (helpers := Euclid.helpers) (env := quiet) 3
                (start regaining) 0 eq_refl eq_refl eq_refl ltac:(discriminate)) as H.
  cbv zeta in H. destruct H as (_ & H2 & H3 & H4 & _).
  split; [exact H2|]. split; [exact H3 | exact H4].
Defined.

Section Guards.
Context {helpers : Helpers} {env : Env}.

(** X12 (run). The status checks of [run] do nothing at all before the
    mission has started, when the agent is stopped, and on a robot whose name
    contains an 'A'; nor with a path while the history window is not full. With the guards
    passed and no path, they only report 'No Path'. *)
Theorem statusChecks_skips (w : World) :
  let r := self w in
  (checksStatus r = false -> statusChecks w = (Ok tt, w))
  /\ (Goal.path (Agent.goal (agent r)) <> [] -> len (history r) <> hislen r ->
      statusChecks w = (Ok tt, w))
  /\ (checksStatus r = true -> Goal.path (Agent.goal (agent r)) = [] ->
      statusChecks w = super (updateStatus "No Path") w).
Proof.
  cbv zeta. unfold statusChecks, bind, get. fold (checksStatus (self w)).
  repeat split.
  - intros ->. reflexivity.
  - intros Hp Hl. destruct (checksStatus (self w)); [|reflexivity]. cbn [when].
    destruct (Goal.path _); [congruence|].
    apply Z.eqb_neq in Hl. rewrite Hl. reflexivity.
  - intros -> ->. reflexivity.
Qed.

(** X13 (run). With a stuck-time threshold of zero, no cycle on which the
    stuck detector runs gets past its status checks. When the stuck test
    raises, the checks raise its error, the robot unchanged; when it
    returns, it answers False, the counter and the candidates are reset,
    and the interval test raises ZeroDivisionError. *)
Theorem stuck_threshold_zero (w : World) :
  detectionRuns (self w) ->
  stopCheck (self w) = 0 ->
  match isStuck (self w) with
  | Ok stopped =>
      stopped = false
      /\ statusChecks w
         = (Raise "ZeroDivisionError", mkWorld (resetStuck (self w)) (trace w))
  | Raise e => statusChecks w = (Raise e, w)
  end.
Proof.
  intros Hruns Hz.
  destruct (isStuck (self w)) as [[|]|e] eqn:Hs;
    rewrite (statusChecks_runs w Hruns); unfold bind at 1.
  - destruct (isStuck_never _ Hs).
  - split; [reflexivity|].
    rewrite (stuckCount_eq w false Hs). unfold stuckReport, bind, get, lift, pymod.
    cbn [fst snd]. rewrite !self_upd_self.
    change (stopCheck (resetStuck (self w))) with (stopCheck (self w)).
    change (stuck (resetStuck (self w))) with 0.
    rewrite Hz. reflexivity.
  - rewrite (stuckCount_raises w e Hs). reflexivity.
Qed.

End Guards.

(** X12 on a stopped robot and on one with an empty path. *)
Lemma statusChecks_skips_witness :
  statusChecks (helpers := Euclid.helpers) (env := quiet) (start stopped) = (Ok tt, start stopped)
  /\ statusChecks (helpers := Euclid.helpers) (env := quiet) (start idleNoPath)
     = super (env := quiet) (updateStatus "No Path") (start idleNoPath).
Proof.
  split.
  - apply (proj1 (statusChecks_skips (helpers := Euclid.helpers) (env := quiet) (start stopped))).
    reflexivity.
  - apply (proj2 (proj2 (statusChecks_skips (helpers := Euclid.helpers) (env := quiet)
                           (start idleNoPath))));
      reflexivity.
Defined.

(** X13 with a threshold of zero, on [moving] and on [idle]. *)
Lemma stuck_threshold_zero_witness :
  statusChecks (helpers := Euclid.helpers) (env := quiet) (start movingNoThreshold)
  = (Raise "ZeroDivisionError", start (resetStuck movingNoThreshold))
  /\ statusChecks (helpers := Euclid.helpers) (env := quiet) (start noThreshold)
     = (Raise "NameError", start noThreshold).
Proof.
  split.
  - pose proof (stuck_threshold_zero (helpers := Euclid.helpers) (env := quiet)
                  (start movingNoThreshold)) as H.
    assert (E : isStuck (helpers := Euclid.helpers) (self (start movingNoThreshold)) = Ok false)
      by (vm_compute; reflexivity).
    rewrite E in H. apply H; [|reflexivity].
    repeat split; try reflexivity. discriminate.
  - pose proof (stuck_threshold_zero (helpers := Euclid.helpers) (env := quiet)
                  (start noThreshold)) as H.
    assert (E : isStuck (helpers := Euclid.helpers) (self (start noThreshold)) = Raise "NameError")
      by (vm_compute; reflexivity).
    rewrite E in H. apply H; [|reflexivity].
    repeat split; try reflexivity. discriminate.
Defined.

Section Blacklist.
Context {helpers : Helpers} {env : Env}.

Lemma committed_app (tr tr' : list Event) : committed (tr ++ tr') = committed tr ++ committed tr'.
Proof. unfold committed. apply flat_map_app. Qed.

(** X14 (run). The blacklist step of [run] commits at most one point: the
    trace either commits nothing more, or exactly one point more, which is
    the mean of the candidates that survived the outlier filter, more than
    half a window of them, and which is not the origin. *)
Theorem commitBlacklist_commits (w : World) :
  let r := self w in
  let w' := snd (commitBlacklist w) in
  committed (trace w') = committed (trace w)
  \/ exists avgGoal newAvg,
       averagePosition (blgoals r) = Ok avgGoal
       /\ hislen r / 2 < len (survivors r avgGoal)
       /\ averagePosition (survivors r avgGoal) = Ok newAvg
       /\ isOrigin newAvg = false
       /\ committed (trace w') = committed (trace w) ++ [newAvg].
Proof.
  cbv zeta.
  destruct (averagePosition (blgoals (self w))) as [avgGoal|e] eqn:Havg.
  2:{ left. replace (commitBlacklist w) with (@Raise unit e, w); [reflexivity|].
      unfold commitBlacklist, bind, get, lift. rewrite Havg. reflexivity. }
  destruct (commitBlacklist_cases w avgGoal Havg) as [Hfew Hmany].
  destruct (Z.ltb_spec (hislen (self w) / 2) (len (survivors (self w) avgGoal))) as [H|H];
    [|left; rewrite (Hfew H); reflexivity].
  destruct (averagePosition (survivors (self w) avgGoal)) as [newAvg|e] eqn:Hnew.
  2:{ left. replace (commitBlacklist w) with (@Raise unit e, w); [reflexivity|].
      rewrite (commitBlacklist_filtered w avgGoal Havg).
      apply Z.ltb_lt in H. rewrite H. cbn [when]. unfold bind, lift. rewrite Hnew.
      reflexivity. }
  rewrite (Hmany newAvg H eq_refl).
  destruct (isOrigin newAvg) eqn:Ho; [left; reflexivity|].
  unfold super, bind, call, modify.
  destruct (raises (trace w) (parent (addBlacklist newAvg))); [left; reflexivity|].
  right. exists avgGoal, newAvg. repeat split; try assumption.
  cbn [fst snd].
  change (committed (trace w ++ [parent (addBlacklist newAvg)]) = committed (trace w) ++ [newAvg]).
  rewrite committed_app. reflexivity.
Qed.

(** X15 (run). Below the stuck-time threshold the stuck report of [run]
    does nothing; at or above it but off a multiple of the threshold it
    only reports 'Stuck', without the blacklist step. *)
Theorem stuckReport_off_interval (w : World) :
  (stuck (self w) < stopCheck (self w) -> stuckReport w = (Ok tt, w))
  /\ (stopCheck (self w) <= stuck (self w) ->
      stopCheck (self w) <> 0 ->
      stuck (self w) mod stopCheck (self w) <> 0 ->
      stuckReport w = reportStuck w).
Proof.
  split.
  - intros H. unfold stuckReport, bind, get.
    destruct (Z.leb_spec (stopCheck (self w)) (stuck (self w))); [lia | reflexivity].
  - intros Hge Hnz Hmod. rewrite (stuckReport_interval w Hge Hnz).
    apply Z.eqb_neq in Hmod. rewrite Hmod. reflexivity.
Qed.

End Blacklist.

(** X15 on [idle], three cycles stuck, and on the thirty-first cycle stuck. *)
Lemma stuckReport_off_interval_witness :
  stuckReport (helpers := Euclid.helpers) (env := quiet) (start idle) = (Ok tt, start idle)
  /\ stuckReport (helpers := Euclid.helpers) (env := quiet)
       (start (stuckAtThirty <| stuck := 31 |>))
     = reportStuck (env := quiet) (start (stuckAtThirty <| stuck := 31 |>)).
Proof.
  split.
  - apply (proj1 (stuckReport_off_interval (helpers := Euclid.helpers) (env := quiet)
                    (start idle))).
    reflexivity.
  - apply (proj2 (stuckReport_off_interval (helpers := Euclid.helpers) (env := quiet)
                    (start (stuckAtThirty <| stuck := 31 |>)))); discriminate.
Defined.

Section WindowNonEmpty.
Context {helpers : Helpers} {env : Env}.

Lemma index_first {A} (a : A) (l : list A) : index (a :: l) 0 = Ok a.
Proof. reflexivity. Qed.

Lemma isStuck_reads (r : Robot) :
  history r <> [] -> isStuck r = Ok false \/ isStuck r = Raise "NameError".
Proof.
  intros H. unfold isStuck. destruct (history r) as [|a l]; [congruence|].
  rewrite index_first. cbn [and_then]. destruct (index_last a l) as [x ->]. cbn [and_then].
  destruct (PrimFloat.ltb _ _); [right | left]; reflexivity.
Qed.

(** X16 (updateHistory, run). With a window length that is not negative,
    the history that [updateHistory] leaves ends with the current pose, so
    the first and the last sample that the stuck test of [run] reads exist
    and the test raises no IndexError: it answers False, or it raises the
    NameError of line 364. *)
Theorem stuck_test_reads_window (w : World) :
  0 <= hislen (self w) ->
  let r' := self (snd (updateHistory w)) in
  (exists older, history r' = older ++ [Agent.odometry (agent (self w))])
  /\ (isStuck r' = Ok false \/ isStuck r' = Raise "NameError").
Proof.
  intros Hpos. cbv zeta. rewrite updateHistory_eq. cbn [snd self].
  pose proof (window_ends (self w) Hpos) as Hh.
  split; [exact Hh|].
  apply isStuck_reads. destruct Hh as [older ->]. destruct older; discriminate.
Qed.

End WindowNonEmpty.

(** X16 on a robot with a window length of zero. *)
Lemma stuck_test_reads_window_witness :
  let r' := self (snd (updateHistory (helpers := Euclid.helpers) (start (init "X1" 0)))) in
  hislen (init "X1" 0) = 0
  /\ (exists older, history r' = older ++ [at_xy 0 0])
  /\ (isStuck (helpers := Euclid.helpers) r' = Ok false
      \/ isStuck (helpers := Euclid.helpers) r' = Raise "NameError").
Proof.
  split; [reflexivity|].
  apply (stuck_test_reads_window (helpers := Euclid.helpers) (start (init "X1" 0))). discriminate.
Defined.

Section Neighbors.
Context {helpers : Helpers} {env : Env}.

Lemma super_quiet (c : ParentCall) (w : World) :
  neverRaises ->
  super c w = (Ok tt, w <| trace ::= (fun tr => tr ++ [parent c]) |> <| self ::= parentEffect c |>).
Proof. intros Hq. unfold super, bind, call, modify. rewrite Hq. reflexivity. Qed.

Lemma countLoop (check : Z) (l : list Neighbor.t) (acc : Z) (w : World) :
  neverRaises ->
  exists w',
    fold_each l acc
      (fun num_neighbors neighbor =>
         super (artifactCheckNeighbor (Neighbor.id neighbor)) ;;
         ret (if check <? Neighbor.lastMessage neighbor
              then num_neighbors + 1 else num_neighbors)) w
    = (Ok (acc + len (filter (fun neighbor => check <? Neighbor.lastMessage neighbor) l)), w')
    /\ trace w' = trace w ++ map (fun neighbor => parent (artifactCheckNeighbor (Neighbor.id neighbor))) l.
Proof.
  intros Hq. revert acc w. induction l as [|nb l IH]; intros acc w.
  - exists w. cbn. rewrite Z.add_0_r, app_nil_r. split; reflexivity.
  - cbn [fold_each]. unfold bind at 1 2. rewrite (super_quiet _ _ Hq). unfold ret at 1.
    match goal with |- context [fold_each l ?acc' _ ?w1] =>
      destruct (IH acc' w1) as (w' & E & Ht) end.
    exists w'. split; [rewrite E, len_filter_cons|].
    + destruct (check <? Neighbor.lastMessage nb); f_equal; f_equal; lia.
    + rewrite Ht. cbn [map]. rewrite trace_upd_self, trace_upd_trace, <- app_assoc. reflexivity.
Qed.

(** X17 (run). When no collaborator raises, the neighbour count of [run]
    returns normally, having asked for the artifacts of every neighbour, in
    registry order, and then published the number of neighbours whose last
    message is later than the time check; that number lies between zero and
    the number of neighbours, and the time check is not negative when the
    time is not. *)
Theorem countNeighbors_publishes (now : Z) (w : World) :
  neverRaises ->
  let r := self w in
  let current := filter (isCurrent r now) (values (neighbors r)) in
  exists w',
    countNeighbors now w = (Ok tt, w')
    /\ trace w'
       = trace w
         ++ map (fun neighbor => parent (artifactCheckNeighbor (Neighbor.id neighbor)))
                (values (neighbors r))
         ++ [num_pub (len current)]
    /\ 0 <= len current <= len (neighbors r)
    /\ (0 <= now -> 0 <= neighborCheck r now).
Proof.
  intros Hq. cbv zeta. unfold countNeighbors. unfold bind at 1. unfold get at 1.
  unfold bind at 1.
  destruct (countLoop (neighborCheck (self w) now) (values (neighbors (self w))) 0 w Hq)
    as (w1 & E & Ht).
  unfold neighborCheck in E.
  exists (w1 <| trace ::= fun tr => tr ++ [num_pub (len (filter (isCurrent (self w) now)
                                                       (values (neighbors (self w)))))] |>).
  split.
  { rewrite E. unfold call. rewrite Hq. reflexivity. }
  split.
  { rewrite trace_upd_trace, Ht, <- app_assoc. reflexivity. }
  split.
  { split; [apply len_nonneg|].
    unfold len, values. rewrite <- (length_map snd (neighbors (self w))).
    apply inj_le. apply filter_length_le. }
  intros Hnow. unfold neighborCheck.
  destruct (Z.ltb_spec (commThreshold (self w) * 30) now); lia.
Qed.

End Neighbors.

(** X17 on [inCompany] at time 100: one neighbour is current. *)
Lemma countNeighbors_publishes_witness :
  exists w',
    countNeighbors (env := quiet) 100 (start inCompany) = (Ok tt, w')
    /\ trace w' = [parent (artifactCheckNeighbor "X2"); parent (artifactCheckNeighbor "X3");
                   num_pub 1].
Proof.
  destruct (countNeighbors_publishes (env := quiet) 100 (start inCompany))
    as (w' & E & Ht & _).
  - intros tr e. reflexivity.
  - exists w'. split; [exact E | exact Ht].
Defined.

Section Tasks.
Context {helpers : Helpers} {env : Env}.

(** X18 (run). An accepted GUI task naming one of the modes ('Start'
    counting as 'Explore') sets that mode, publishes True on the stop topic,
    consumes the command by lowering [guiAccept], and leaves the beacon
    check enabled, provided the stop publisher does not raise. *)
Theorem manageTask_command (w : World) (m : string) :
  let r := self w in
  Agent.guiAccept (agent r) = true ->
  Agent.guiTaskName (agent r) = "task" ->
  commandedMode (Agent.guiTaskValue (agent r)) = Some m ->
  raises (trace w) (stop_pub true) = None ->
  manageTask w
  = (Ok true,
     mkWorld (r <| mode := m |> <| agent -> Agent.guiAccept := false |>)
             (trace w ++ [stop_pub true])).
Proof.
  intros r Ha Hn Hm Hq. subst r. unfold manageTask. unfold bind at 1. unfold get at 1.
  rewrite Ha, Hn. cbn [String.eqb Ascii.eqb Bool.eqb andb].
  unfold commandedMode in Hm.
  destruct (String.eqb (Agent.guiTaskValue (agent (self w))) "Explore"
            || String.eqb (Agent.guiTaskValue (agent (self w))) "Start");
    [|destruct (String.eqb (Agent.guiTaskValue (agent (self w))) "Home");
      [|destruct (String.eqb (Agent.guiTaskValue (agent (self w))) "Stop");
        [|destruct (String.eqb (Agent.guiTaskValue (agent (self w))) "Goal");
          [|discriminate]]]];
    injection Hm as <-;
    unfold bind, modify, ret, call; cbn [fst snd trace];
    rewrite ?trace_upd_self; rewrite Hq; reflexivity.
Qed.

Lemma manageTask_idle (w : World) :
  Agent.guiAccept (agent (self w)) = false -> manageTask w = (Ok true, w).
Proof. intros H. unfold manageTask, bind, get. rewrite H. reflexivity. Qed.

End Tasks.

(** X18 on [calledHome]. *)
Lemma manageTask_command_witness :
  manageTask (helpers := Euclid.helpers) (env := quiet) (start calledHome)
  = (Ok true,
     mkWorld (calledHome <| mode := "Home" |> <| agent -> Agent.guiAccept := false |>)
             [stop_pub true]).
Proof.
  apply (manageTask_command (helpers := Euclid.helpers) (env := quiet) (start calledHome) "Home");
    reflexivity.
Defined.

Section Always.
Context {env : Env}.
Variable J : World -> Prop.

Lemma always_ret {A} (a : A) : always J (ret a).
Proof. intros w H. exact H. Qed.

Lemma always_lift {A} (o : Outcome A) : always J (lift o).
Proof. intros w H. exact H. Qed.

Lemma always_bind {A B} (m : M A) (k : A -> M B) :
  always J m -> (forall a, always J (k a)) -> always J (bind m k).
Proof.
  intros Hm Hk w H. unfold bind. specialize (Hm w H).
  destruct (m w) as [[a|e] w']; cbn [snd] in *; [apply Hk|]; assumption.
Qed.

(** After [r <- get], [r] is the robot of a world that satisfies [J]. *)
Lemma always_get_bind {B} (k : Robot -> M B) :
  (forall r, (exists w, J w /\ self w = r) -> always J (k r)) -> always J (bind get k).
Proof. intros Hk w H. unfold bind, get. apply (Hk (self w)); eauto. Qed.

Lemma always_modify (f : Robot -> Robot) :
  (forall w, J w -> J (w <| self ::= f |>)) -> always J (modify f).
Proof. intros Hf w H. apply Hf, H. Qed.

Lemma always_log (e : Event) :
  (forall w, J w -> J (w <| trace ::= fun tr => tr ++ [e] |>)) -> always J (log e).
Proof. intros He w H. apply He, H. Qed.

Lemma always_call (e : Event) :
  (forall w, J w -> J (w <| trace ::= fun tr => tr ++ [e] |>)) -> always J (call e).
Proof. intros He w H. unfold call. destruct (raises _ _); [exact H | apply He, H]. Qed.

Lemma always_super (c : ParentCall) :
  (forall w, J w -> J (w <| trace ::= fun tr => tr ++ [parent c] |>)) ->
  (forall w, J w -> J (w <| self ::= parentEffect c |>)) ->
  always J (super c).
Proof.
  intros Ht Hs. apply always_bind; [apply always_call, Ht|]. intros _. apply always_modify, Hs.
Qed.

Lemma always_when (b : bool) (m : M unit) : always J m -> always J (when b m).
Proof. intros Hm. destruct b; [exact Hm | apply always_ret]. Qed.

End Always.

Section ExploreBlacklist.
Context {helpers : Helpers} {env : Env}.

Lemma plannerOk_event (ps : list Point.t) (e : Event) (w : World) :
  isAddBlacklist e = false ->
  plannerOk ps w -> plannerOk ps (w <| trace ::= fun tr => tr ++ [e] |>).
Proof.
  intros He [Hp Hc]. split; [exact Hp|].
  rewrite trace_upd_trace, committed_app, Hc.
  destruct e as [| | | | | | | | | | | | | | | |c]; try (cbn; apply app_nil_r).
  destruct c; try discriminate; cbn; apply app_nil_r.
Qed.

Lemma plannerOk_parent (ps : list Point.t) (c : ParentCall) (w : World) :
  parentKeeps (fun r => planner_status r = true) ->
  plannerOk ps w -> plannerOk ps (w <| self ::= parentEffect c |>).
Proof. intros HP [Hp Hc]. split; [apply HP, Hp | exact Hc]. Qed.

(** X19 (deconflictExplore). While the planner is healthy, and the
    inherited methods leave its status alone, [deconflictExplore] adds no
    point to the goal blacklist, whether it returns or raises. *)
Theorem deconflictExplore_blacklist (w : World) :
  parentKeeps (fun r => planner_status r = true) ->
  planner_status (self w) = true ->
  let w' := snd (deconflictExplore w) in
  committed (trace w') = committed (trace w)
  /\ planner_status (self w') = true.
Proof.
  intros HP Hok. cbv zeta.
  cut (always (plannerOk (committed (trace w))) deconflictExplore).
  { intros H. destruct (H w (conj Hok eq_refl)) as [Hp Hc]. split; assumption. }
  unfold deconflictExplore.
  repeat first
    [ match goal with
      | |- always _ (bind get _) => apply always_get_bind; intros ? (? & [? ?] & <-)
      | |- always _ (bind _ _) => apply always_bind; [|intros ?]
      | |- always _ (ret _) => apply always_ret
      | |- always _ (lift _) => apply always_lift
      | |- always _ (log _) => apply always_log; intros ? ?;
                               apply plannerOk_event; [reflexivity | assumption]
      | |- always _ (call _) => apply always_call; intros ? ?;
                                apply plannerOk_event; [reflexivity | assumption]
      | |- always _ (modify _) => apply always_modify; intros ? ?; assumption
      | |- always _ (when (negb (planner_status _) && _) _) =>
          match goal with H : planner_status _ = true |- _ => rewrite H end;
          apply always_ret
      | |- always _ (when _ _) => apply always_when
      | |- always _ (super _) => apply always_super; intros ? ?;
            [apply plannerOk_event; [reflexivity | assumption]
            | apply plannerOk_parent; assumption]
      | |- always _ (if ?b then _ else _) => destruct b
      end ].
Qed.

End ExploreBlacklist.

(** X19 on [exploring] with the quiet collaborators. *)
Lemma deconflictExplore_blacklist_witness :
  let w' := snd (deconflictExplore (helpers := Euclid.helpers) (env := quiet) (start exploring)) in
  committed (trace w') = [] /\ planner_status (self w') = true.
Proof.
  apply (deconflictExplore_blacklist (helpers := Euclid.helpers) (env := quiet) (start exploring)).
  - intros c r H. exact H.
  - reflexivity.
Defined.

Section ArbiterEdges.
Context {helpers : Helpers} {env : Env}.

(** X20 (run). In Deploy mode and in comm, when [regainBase] was never
    assigned (the constructor assigns [baseRegain]), the mode step of [run]
    raises AttributeError right after its log line, the robot unchanged. *)
Theorem modeArbiter_unassigned (w : World) :
  mode (self w) = "Deploy" ->
  Base.incomm (base (self w)) = true ->
  regainBase (self w) = None ->
  modeArbiter w
  = (Raise "AttributeError",
     mkWorld (self w) (trace w ++ [loginfo (id (self w) ^^ " reverse deploy mode")])).
Proof.
  intros Hm Hc Hr. unfold modeArbiter. unfold bind at 1. unfold get at 1.
  rewrite Hm. cbn [String.eqb Ascii.eqb Bool.eqb andb].
  rewrite Hc. unfold bind at 1, log at 1. unfold bind at 1. rewrite Hr.
  reflexivity.
Qed.

(** X21 (run). In Deploy mode and in comm with the regain counter past 5,
    when the distance check at the junction spacing says not to drop, the
    mode step of [run] cancels the drop: it deploys nothing,
    returns to Explore and restarts the counter, writing two log lines. *)
Theorem modeArbiter_cancels (w : World) (n : Z) :
  let r := self w in
  mode r = "Deploy" ->
  Base.incomm (base r) = true ->
  regainBase r = Some n ->
  5 < n ->
  dropFlag (beaconDistCheck r (Agent.odometry (agent r)) (junctionDist r) true) = false ->
  modeArbiter w
  = (Ok tt,
     mkWorld (r <| mode := "Explore" |> <| regainBase := Some 0 |>)
             (trace w ++ [loginfo (id r ^^ " reverse deploy mode");
                          loginfo (id r ^^ " beacon too close, cancelling drop")])).
Proof.
  intros r Hm Hc Hr Hn Hflag. subst r. unfold modeArbiter. unfold bind at 1. unfold get at 1.
  rewrite Hm. cbn [String.eqb Ascii.eqb Bool.eqb andb].
  rewrite Hc. unfold bind at 1, log at 1. unfold bind at 1. rewrite Hr.
  unfold ret at 1. cbn [fst snd].
  apply Z.ltb_lt in Hn. rewrite Hn.
  unfold dropFlag in Hflag.
  destruct (beaconDistCheck _ _ _ _) as [[flag nB] nDB]. cbn [fst] in Hflag. subst flag.
  unfold bind, log, modify. cbn [fst snd].
  match goal with
  | |- (_, ?x) = _ =>
      change x with (mkWorld ((self w) <| mode := "Explore" |> <| regainBase := Some 0 |>)
                       ((trace w ++ [loginfo (id (self w) ^^ " reverse deploy mode")])
                        ++ [loginfo (id (self w) ^^ " beacon too close, cancelling drop")]))
  end.
  rewrite <- app_assoc. reflexivity.
Qed.

End ArbiterEdges.

(** X20 on [allDeployed], as the constructor left [regainBase]. *)
Lemma modeArbiter_unassigned_witness :
  fst (modeArbiter (helpers := Euclid.helpers) (env := quiet) (start allDeployed))
  = Raise "AttributeError".
Proof.
  rewrite (modeArbiter_unassigned (helpers := Euclid.helpers) (env := quiet) (start allDeployed));
    reflexivity.
Defined.

(** X21 on [settled]. *)
Lemma modeArbiter_cancels_witness :
  let w' := snd (modeArbiter (helpers := Euclid.helpers) (env := quiet) (start settled)) in
  mode (self w') = "Explore" /\ regainBase (self w') = Some 0 /\ registry w' = registry (start settled).
Proof.
  rewrite (modeArbiter_cancels (helpers := Euclid.helpers) (env := quiet) (start settled) 6);
    try reflexivity.
  repeat split.
Defined.
